(** * Empresario: OTP verification and registration back ends

    A shallow embedding of the two back ends of the repository and the
    properties of their OTP life cycle:

    - [Server]: the Express service (in-memory [otpStore], handlers of
      [POST /api/otp/send], [POST /api/otp/verify], [POST /api/register]);
    - [AppsScript]: the Google Apps Script web app ([sendOTP], [verifyOTP],
      [register] over spreadsheet rows).

    Conventions of the embedding.
    - Times are epoch milliseconds, integers ([Z]); [Date.now()] is an input
      of each request.
    - A JavaScript string is the sequence of its code units; the model covers
      code units below 256 (Rocq [ascii]).
    - An absent request field ([undefined]) is [None].
    - [Math.floor(Math.random() * n)] is an integer drawn by the environment;
      its range [0 <= k < n] is a hypothesis wherever a property needs it.
    - The mail transport and the spreadsheet service are collaborators: each
      call's outcome (resolved or thrown) is an input, and every call is
      recorded in a log. *)

From Stdlib Require Import ZArith String Ascii List Lia Bool QArith.
From Stdlib Require Import DecimalString DecimalZ DecimalPos.
From stdpp Require Import base gmap strings list option.

Open Scope Z_scope.

(** ** JavaScript helpers *)

(** [!s] is false exactly for a present, non-empty string. *)
Definition truthy (v : option string) : bool :=
  match v with
  | Some s => negb (String.eqb s EmptyString)
  | None => false
  end.

(** [v || ''] on a string-valued field. *)
Definition or_empty (v : option string) : string :=
  if truthy v then default EmptyString v else EmptyString.

(** [String(n)] and template interpolation of an integer. *)
Definition string_of_Z (n : Z) : string := NilZero.string_of_int (Z.to_int n).

(** [s[k]] appended to a string: out of range it is [undefined], which
    string concatenation renders as the text "undefined". *)
Definition char_at (s : string) (k : nat) : string :=
  match String.get k s with
  | Some c => String c EmptyString
  | None => "undefined"%string
  end.

(** An HTTP response of the Express service: [res.json({ ok: true })] or
    [res.status(status).json({ error })]. *)
Inductive Response :=
  | JsonOk
  | JsonError (status : Z) (error : string).

#[global] Instance Response_eq_dec : EqDecision Response.
Proof. solve_decision. Defined.

(** ** The Express service *)

Module Server.

(** The configuration read from the environment at start-up; the defaults
    are the ones of the source. *)
Inductive EmailProvider := Sendgrid | Smtp.

Record Config := {
  otpLength : Z;
  otpTtlSeconds : Z;
  rateWindowSeconds : Z;
  rateMaxPerWindow : Z;
  minResendIntervalSeconds : Z;
  emailProvider : EmailProvider;
  transporter : bool;               (* SMTP transport created at start-up *)
  emailFrom : string;
  spreadsheetId : option string;
  sheetName : option string
}.

Definition default_config : Config := {|
  otpLength := 6;
  otpTtlSeconds := 600;
  rateWindowSeconds := 900;
  rateMaxPerWindow := 5;
  minResendIntervalSeconds := 60;
  emailProvider := Smtp;
  transporter := true;
  emailFrom := "no-reply@example.com";
  spreadsheetId := Some "sheet-1"%string;
  sheetName := None
|}.

(** [otpStore[email]]. [code] is [None] for [null]. *)
Record OtpEntry := {
  code : option string;
  expiresAt : Z;
  lastSentAt : Z;
  windowStartAt : Z;
  sentCountInWindow : Z
}.

Record Mail := {
  to : string;
  from : string;
  subject : string;
  text : string;
  html : string
}.

(** The process state the OTP handlers touch: the in-memory map and the
    log of mails passed to the transport. *)
Record World := {
  otpStore : gmap string OtpEntry;
  mailLog : list Mail
}.

Definition empty_world : World := {| otpStore := ∅; mailLog := [] |}.

Definition set_store (w : World) (s : gmap string OtpEntry) : World :=
  {| otpStore := s; mailLog := mailLog w |}.

(** *** generateOtp *)

Definition digits : string := "0123456789".

(** The loop [for (i = 0; i < length; i++) otp += digits[...]]; [rnd i] is
    the value of [Math.floor(Math.random() * 10)] in iteration [i]. *)
Fixpoint generateOtp_loop (n : nat) (i : nat) (rnd : nat -> nat) (otp : string) : string :=
  match n with
  | O => otp
  | S n' => generateOtp_loop n' (S i) rnd (otp +:+ char_at digits (rnd i))
  end.

Definition generateOtp (length : Z) (rnd : nat -> nat) : string :=
  generateOtp_loop (Z.to_nat length) 0 rnd EmptyString.

(** The decimal digit of a draw below ten, and strings of decimal digits. *)
Definition digit (k : nat) : ascii := ascii_of_nat (48 + k).
#[global] Arguments digit : simpl never.

Definition is_decimal (c : ascii) : bool :=
  ((48 <=? nat_of_ascii c) && (nat_of_ascii c <=? 57))%nat.

Fixpoint all_decimal (s : string) : bool :=
  match s with
  | EmptyString => true
  | String c s' => is_decimal c && all_decimal s'
  end.

(** The text the loop appends for a list of draws. *)
Fixpoint code_of_draws (ds : list nat) : string :=
  match ds with
  | [] => EmptyString
  | d :: ds' => char_at digits d +:+ code_of_draws ds'
  end.

(** *** The e-mail shape test [/^[^@\s]+@[^@\s]+\.[^@\s]+$/] *)

(** [\s] on code units below 256. *)
Definition is_space (c : ascii) : bool :=
  let n := nat_of_ascii c in
  (((9 <=? n)%nat && (n <=? 13)%nat) || (n =? 32)%nat || (n =? 160)%nat).

(** [[^@\s]] *)
Definition plain (c : ascii) : bool :=
  negb (Ascii.eqb c "@" || is_space c).

Fixpoint all_plain (s : string) : bool :=
  match s with
  | EmptyString => true
  | String c s' => plain c && all_plain s'
  end.

(** Splits at the first character that is not [[^@\s]]. *)
Fixpoint span_plain (s : string) : string * string :=
  match s with
  | EmptyString => (EmptyString, EmptyString)
  | String c s' =>
      if plain c then
        let (a, r) := span_plain s' in (String c a, r)
      else (EmptyString, s)
  end.

(** Some dot of [s] has a non-empty suffix after it. *)
Fixpoint dot_before_end (s : string) : bool :=
  match s with
  | EmptyString => false
  | String c s' =>
      (Ascii.eqb c "." && negb (String.eqb s' EmptyString)) || dot_before_end s'
  end.

(** [s] is [b ++ "." ++ c] with [b] and [c] non-empty. *)
Definition inner_dot (s : string) : bool :=
  match s with
  | EmptyString => false
  | String _ s' => dot_before_end s'
  end.

Definition test_email (s : string) : bool :=
  let (a, r) := span_plain s in
  match r with
  | String c r' =>
      Ascii.eqb c "@" && negb (String.eqb a EmptyString) && all_plain r' && inner_dot r'
  | EmptyString => false
  end.

(** What the regular expression says: the whole string is a non-empty run
    of [[^@\s]], an "@", a non-empty run of [[^@\s]], a dot and a non-empty
    run of [[^@\s]]. [test_email] decides it ([test_email_shape] below). *)
Definition email_shape (s : string) : Prop :=
  exists a b c,
    s = a +:+ "@" +:+ b +:+ "." +:+ c /\
    a <> EmptyString /\ b <> EmptyString /\ c <> EmptyString /\
    all_plain a = true /\ all_plain b = true /\ all_plain c = true.

(** *** sendEmail *)

(** [transport_ok] is the outcome of the transport call
    ([sgMail.send] / [transporter.sendMail]): [true] when the promise
    resolves. The result is the new mail log and whether [sendEmail]
    resolved; with SMTP and no transporter it throws before any call. *)
Definition sendEmail (cfg : Config) (transport_ok : bool) (m : Mail) (log : list Mail)
  : list Mail * bool :=
  match emailProvider cfg with
  | Sendgrid => (log ++ [m], transport_ok)
  | Smtp =>
      if transporter cfg then (log ++ [m], transport_ok) else (log, false)
  end.

(** *** POST /api/otp/send *)

Definition InvalidIdentity : Response := JsonError 400 "Invalid email".
Definition RateLimited : Response := JsonError 429 "Too many OTP requests. Try later.".
Definition TooSoon : Response := JsonError 429 "Please wait before requesting another OTP.".
Definition NotifierFailure : Response := JsonError 500 "Failed to send OTP".

(** The entry used when the map has none for the identity. *)
Definition fresh_entry (now : Z) : OtpEntry := {|
  code := None;
  expiresAt := 0;
  lastSentAt := 0;
  windowStartAt := now;
  sentCountInWindow := 0
|}.

(** "Reset window if elapsed". *)
Definition reset_window (cfg : Config) (now : Z) (entry : OtpEntry) : OtpEntry :=
  if rateWindowSeconds cfg * 1000 <? now - windowStartAt entry then
    {| code := code entry;
       expiresAt := expiresAt entry;
       lastSentAt := lastSentAt entry;
       windowStartAt := now;
       sentCountInWindow := 0 |}
  else entry.

(** The assignments of a successful issuance. *)
Definition issue_entry (cfg : Config) (now : Z) (c : string) (entry : OtpEntry) : OtpEntry := {|
  code := Some c;
  expiresAt := now + otpTtlSeconds cfg * 1000;
  lastSentAt := now;
  windowStartAt := windowStartAt entry;
  sentCountInWindow := sentCountInWindow entry + 1
|}.

Definition otp_mail (cfg : Config) (email c : string) : Mail :=
  let minutes := string_of_Z (otpTtlSeconds cfg / 60) in
  {| to := email;
     from := emailFrom cfg;
     subject := "Your Empresario verification code";
     text := "Your verification code is " +:+ c +:+ ". It expires in "
               +:+ minutes +:+ " minutes.";
     html := "<p>Your verification code is <b>" +:+ c +:+ "</b>.</p><p>It expires in "
               +:+ minutes +:+ " minutes.</p>" |}.

(** [otpStore.get(email) || { ... }] after the window reset. *)
Definition current_entry (cfg : Config) (now : Z) (e : string) (w : World) : OtpEntry :=
  reset_window cfg now (default (fresh_entry now) (otpStore w !! e)).

(** The entry read from the map is the stored object itself, so the window
    reset is visible in the map even when the request is then refused; the
    entry made up for an unknown identity reaches the map only through
    [otpStore.set]. *)
Definition window_touched (cfg : Config) (now : Z) (e : string) (w : World) : World :=
  match otpStore w !! e with
  | Some _ => set_store w (<[e := current_entry cfg now e w]> (otpStore w))
  | None => w
  end.

(** The response is one that follows the assignments of an issuance. *)
Definition issued (r : Response) : bool :=
  bool_decide (r = JsonOk) || bool_decide (r = NotifierFailure).

(** The handler. *)
Definition otp_send (cfg : Config) (now : Z) (rnd : nat -> nat) (transport_ok : bool)
    (email : option string) (w : World) : Response * World :=
  match email with
  | None => (InvalidIdentity, w)
  | Some e =>
      if negb (truthy email) || negb (test_email e) then (InvalidIdentity, w)
      else
        let entry := current_entry cfg now e w in
        if rateMaxPerWindow cfg <=? sentCountInWindow entry
        then (RateLimited, window_touched cfg now e w)
        else if now - lastSentAt entry <? minResendIntervalSeconds cfg * 1000
        then (TooSoon, window_touched cfg now e w)
        else
          let c := generateOtp (otpLength cfg) rnd in
          let store2 := <[e := issue_entry cfg now c entry]> (otpStore w) in
          let (log2, sent) := sendEmail cfg transport_ok (otp_mail cfg e c) (mailLog w) in
          let w2 := {| otpStore := store2; mailLog := log2 |} in
          if sent then (JsonOk, w2) else (NotifierFailure, w2)
  end.

(** *** POST /api/otp/verify *)

Definition InvalidInput : Response := JsonError 400 "email and otp required".
Definition NotFound : Response := JsonError 400 "OTP not found. Request a new one.".
Definition Expired : Response := JsonError 400 "OTP expired. Request a new one.".
Definition Mismatch : Response := JsonError 400 "Invalid OTP".

(** "Mark as verified for this window by clearing code". *)
Definition clear_code (entry : OtpEntry) : OtpEntry := {|
  code := None;
  expiresAt := expiresAt entry;
  lastSentAt := lastSentAt entry;
  windowStartAt := windowStartAt entry;
  sentCountInWindow := sentCountInWindow entry
|}.

Definition otp_verify (now : Z) (email otp : option string) (w : World)
  : Response * World :=
  match email, otp with
  | Some e, Some o =>
      if negb (truthy email) || negb (truthy otp) then (InvalidInput, w)
      else
        match otpStore w !! e with
        | None => (NotFound, w)
        | Some entry =>
            if negb (truthy (code entry)) then (NotFound, w)
            else if expiresAt entry <? now then (Expired, w)
            else if negb (String.eqb o (default EmptyString (code entry)))
            then (Mismatch, w)
            else (JsonOk, set_store w (<[e := clear_code entry]> (otpStore w)))
        end
  | _, _ => (InvalidInput, w)
  end.

#[global] Arguments otp_send : simpl never.
#[global] Arguments otp_verify : simpl never.

(** *** Request sequences

    The OTP handlers run one request at a time up to their first [await];
    the store is only touched before it, so a run of the service is a
    sequence of handler calls. *)

Inductive Request :=
  | OtpSend (now : Z) (rnd : nat -> nat) (transport_ok : bool) (email : option string)
  | OtpVerify (now : Z) (email otp : option string).

Definition handle (cfg : Config) (r : Request) (w : World) : Response * World :=
  match r with
  | OtpSend now rnd transport_ok email => otp_send cfg now rnd transport_ok email w
  | OtpVerify now email otp => otp_verify now email otp w
  end.

Fixpoint run (cfg : Config) (rs : list Request) (w : World) : World :=
  match rs with
  | [] => w
  | r :: rs' => run cfg rs' (snd (handle cfg r w))
  end.

(** The states the service can be in: those a request sequence produces
    from the empty map of a fresh process. *)
Definition reachable (cfg : Config) (w : World) : Prop :=
  exists rs, run cfg rs empty_world = w.

(** The request is an issuance request for identity [e]. *)
Definition is_send_for (e : string) (r : Request) : bool :=
  match r with
  | OtpSend _ _ _ (Some e') => String.eqb e e'
  | _ => false
  end.

(** The request names identity [e]. *)
Definition concerns (e : string) (r : Request) : bool :=
  match r with
  | OtpSend _ _ _ (Some e') => String.eqb e e'
  | OtpVerify _ (Some e') _ => String.eqb e e'
  | _ => false
  end.

(** The code the map holds for an identity, [None] without a record or
    with a cleared one. *)
Definition stored_code (w : World) (e : string) : option string :=
  match otpStore w !! e with
  | Some entry => code entry
  | None => None
  end.

(** The code of the latest issuance to [e] along the run of [rs] from
    [w]; [acc] when the run has none. *)
Fixpoint last_issued (cfg : Config) (e : string) (rs : list Request) (w : World)
    (acc : option string) : option string :=
  match rs with
  | [] => acc
  | r :: rs' =>
      let acc' :=
        match r with
        | OtpSend _ rnd _ (Some e') =>
            if String.eqb e e' && issued (fst (handle cfg r w))
            then Some (generateOtp (otpLength cfg) rnd)
            else acc
        | _ => acc
        end in
      last_issued cfg e rs' (snd (handle cfg r w)) acc'
  end.

(** Every issuance request for [e] in the run of [rs] from [w] was followed
    by the assignments of an issuance (answered ok, or its mail failed). *)
Fixpoint sends_issued (cfg : Config) (e : string) (rs : list Request) (w : World) : bool :=
  match rs with
  | [] => true
  | r :: rs' =>
      (negb (is_send_for e r) || issued (fst (handle cfg r w)))
      && sends_issued cfg e rs' (snd (handle cfg r w))
  end.

Definition request_time (r : Request) : Z :=
  match r with
  | OtpSend now _ _ _ => now
  | OtpVerify now _ _ => now
  end.

(** The times of the issuance requests for [e]. *)
Definition send_times (e : string) (rs : list Request) : list Z :=
  map request_time (filter (fun r => is_send_for e r = true) rs).

(** The requests at [times], made from [w] on, fall into one rate window of
    [e]: none after the first finds the window of the first elapsed. *)
Definition within_window (cfg : Config) (e : string) (w : World) (times : list Z) : Prop :=
  match times with
  | [] => True
  | t1 :: rest =>
      Forall (fun t => t - windowStartAt (current_entry cfg t1 e w)
                       <= rateWindowSeconds cfg * 1000) rest
  end.

(** The fields of a record other than the code. *)
Definition accounting (entry : OtpEntry) : Z * Z * Z * Z :=
  (expiresAt entry, lastSentAt entry, windowStartAt entry, sentCountInWindow entry).

(** Every record belongs to a well-shaped identity and its window count is
    not negative (an invariant of the reachable states). *)
Definition store_ok (w : World) : Prop :=
  forall e entry, otpStore w !! e = Some entry ->
    test_email e = true /\ 0 <= sentCountInWindow entry.

(** *** POST /api/register *)

Definition NotConfigured : Response := JsonError 500 "SPREADSHEET_ID not configured".
Definition MissingIdentity : Response := JsonError 400 "email required".
Definition StoreFailure : Response := JsonError 500 "Failed to save registration".

(** One [spreadsheets.values.append] call ([valueInputOption] is always
    USER_ENTERED, one row per call). *)
Record Append := {
  append_spreadsheet : string;
  append_range : string;
  append_row : list string
}.

Definition register_fields : list string :=
  [ "email"; "fullName"; "secondaryEmail"; "phone"; "organization"; "city";
    "startupName"; "website"; "industry"; "socialImpact"; "iitkgpAffiliation";
    "aiMlCore"; "tis"; "problem"; "solution"; "market"; "traction"; "revenue";
    "extra" ]%string.

(** [stringify] stands for [JSON.stringify] on the request body. *)
Definition register_row (stringify : gmap string string -> string)
    (timestamp : string) (body : gmap string string) : list string :=
  timestamp :: map (fun f => or_empty (body !! f)) register_fields ++ [stringify body].

(** [client_ok]: [getSheetsClient()] resolved; [append_ok]: the append
    call resolved. The sheet is the sequence of rows appended so far. *)
Definition api_register (cfg : Config) (stringify : gmap string string -> string)
    (timestamp : string) (client_ok append_ok : bool)
    (body : gmap string string) (sheet : list Append) : Response * list Append :=
  if negb (truthy (spreadsheetId cfg)) then (NotConfigured, sheet)
  else if negb (truthy (body !! "email"%string)) then (MissingIdentity, sheet)
  else if negb client_ok then (StoreFailure, sheet)
  else if negb append_ok then (StoreFailure, sheet)
  else
    let name := if truthy (sheetName cfg) then default EmptyString (sheetName cfg)
                else "Submissions"%string in
    (JsonOk,
     sheet ++ [ {| append_spreadsheet := default EmptyString (spreadsheetId cfg);
                   append_range := name +:+ "!A:Z";
                   append_row := register_row stringify timestamp body |} ]).

(** *** CORS

    [allowedOrigins] is computed once at start-up from CORS_ORIGINS;
    [cors_origin] is the [origin] callback of the [cors] middleware. *)

(** [s.split(',')]: the empty string has one (empty) part. *)
Fixpoint split_comma (s : string) : list string :=
  match s with
  | EmptyString => [EmptyString]
  | String c s' =>
      if Ascii.eqb c "," then EmptyString :: split_comma s'
      else
        match split_comma s' with
        | p :: ps => String c p :: ps
        | [] => [String c EmptyString]
        end
  end.

(** [parts.join(',')] *)
Fixpoint join_comma (parts : list string) : string :=
  match parts with
  | [] => EmptyString
  | [p] => p
  | p :: ps => p +:+ String "," (join_comma ps)
  end.

(** [s.trim()]: white space and line terminators are dropped at both ends
    (on code units below 256 these are the characters of [\s]). *)
Fixpoint trim_start (s : string) : string :=
  match s with
  | EmptyString => EmptyString
  | String c s' => if is_space c then trim_start s' else s
  end.

Fixpoint trim_end (s : string) : string :=
  match s with
  | EmptyString => EmptyString
  | String c s' =>
      match trim_end s' with
      | EmptyString => if is_space c then EmptyString else String c EmptyString
      | t => String c t
      end
  end.

Definition trim (s : string) : string := trim_end (trim_start s).

(** [(process.env.CORS_ORIGINS || '').split(',').map(s => s.trim()).filter(Boolean)] *)
Definition allowedOrigins (cors_origins : option string) : list string :=
  List.filter (fun s => negb (String.eqb s EmptyString))
    (map trim (split_comma (or_empty cors_origins))).

(** The [origin] callback: [true] for [callback(null, true)], [false] for
    the error "Not allowed by CORS". [origin] is [None] without the header. *)
Definition cors_origin (allowed : list string) (origin : option string) : bool :=
  negb (truthy origin)
  || (length allowed =? 0)%nat
  || existsb (String.eqb (default EmptyString origin)) allowed.

(** The first and the last character of a string. *)
Definition first_char (s : string) : option ascii :=
  match s with
  | EmptyString => None
  | String c _ => Some c
  end.

Fixpoint last_char (s : string) : option ascii :=
  match s with
  | EmptyString => None
  | String c EmptyString => Some c
  | String _ s' => last_char s'
  end.

(** The number of occurrences of a character, and the absence of white
    space. *)
Fixpoint occurrences (c : ascii) (s : string) : nat :=
  match s with
  | EmptyString => 0%nat
  | String x s' => ((if Ascii.eqb x c then 1 else 0) + occurrences c s')%nat
  end.

Fixpoint no_space (s : string) : bool :=
  match s with
  | EmptyString => true
  | String x s' => negb (is_space x) && no_space s'
  end.

Fixpoint all_space (s : string) : bool :=
  match s with
  | EmptyString => true
  | String x s' => is_space x && all_space s'
  end.

(** What holds of every record of a reachable state. *)
Definition record_ok (cfg : Config) (e : string) (entry : OtpEntry) : Prop :=
  test_email e = true /\
  0 <= sentCountInWindow entry <= rateMaxPerWindow cfg /\
  expiresAt entry = lastSentAt entry + otpTtlSeconds cfg * 1000 /\
  (forall c, code entry = Some c -> exists rnd, c = generateOtp (otpLength cfg) rnd).

End Server.

(** ** The Apps Script web app *)

Module AppsScript.

(** A row of the "OTPs" sheet as [sendOTP] appends it:
    [[email, otp, new Date()]], the code being a number. *)
Record OtpRow := {
  rowEmail : string;
  rowOTP : Z;
  timestamp : Z
}.

(** A row of the registrations sheet: the 21 text cells and the date. *)
Record DataRow := {
  rowData : list string;
  rowDate : Z
}.

Record MailMessage := {
  to : string;
  subject : string;
  body : string;
  replyTo : string;
  name : string
}.

(** The spreadsheet and the mail service. A sheet is [None] until it is
    inserted; an existing sheet is its header row followed by the rows
    listed here (index 1 onwards of [getDataRange().getValues()]). *)
Record World := {
  otpSheet : option (list OtpRow);
  dataSheet : option (list DataRow);
  mailLog : list MailMessage
}.

Definition empty_world : World :=
  {| otpSheet := None; dataSheet := None; mailLog := [] |}.

(** [ContentService.createTextOutput(s)] *)
Definition TextOutput := string.

(** [Math.floor(100000 + Math.random() * 900000)], with
    [k = Math.floor(Math.random() * 900000)]. *)
Definition draw_otp (k : Z) : Z := 100000 + k.

(** The line feed of a template literal. *)
Definition nl : string := String (ascii_of_nat 10) EmptyString.

Definition otp_mail (email : string) (otp : Z) : MailMessage := {|
  to := email;
  subject := "Your OTP for Empresario Registration";
  body := "Your OTP for Empresario Registration is: " +:+ string_of_Z otp
            +:+ nl +:+ nl +:+ "This OTP is valid for 10 minutes."
            +:+ nl +:+ nl +:+ "Team Empresario" +:+ nl +:+ "E-Cell IIT Kharagpur";
  replyTo := "Empresario2026@ecell-iitkgp.org";
  name := "Empresario - E-Cell IIT Kharagpur"
|}.

(** The text of the exception [sheet.appendRow] raises on [null]. *)
Definition null_sheet_error : string :=
  "TypeError: Cannot read properties of null (reading 'appendRow')".

(** [sendOTP]. [k] is the random draw, [now] the value of [new Date()],
    [mail_error] the exception of [MailApp.sendEmail], if any. When the
    sheet is missing it is inserted with its header, but the variable
    [sheet] still holds [null] and [appendRow] throws. *)
Definition sendOTP (k : Z) (now : Z) (mail_error : option string)
    (parameter : gmap string string) (w : World) : TextOutput * World :=
  let email := parameter !! "email"%string in
  if negb (truthy email) then ("Email is required"%string, w)
  else
    let e := default EmptyString email in
    let otp := draw_otp k in
    match otpSheet w with
    | None =>
        ("Error sending OTP: " +:+ null_sheet_error,
         {| otpSheet := Some []; dataSheet := dataSheet w; mailLog := mailLog w |})
    | Some rows =>
        let rows' := rows ++ [ {| rowEmail := e; rowOTP := otp; timestamp := now |} ] in
        match mail_error with
        | Some err =>
            ("Error sending OTP: " +:+ err,
             {| otpSheet := Some rows'; dataSheet := dataSheet w; mailLog := mailLog w |})
        | None =>
            ("OTP sent"%string,
             {| otpSheet := Some rows'; dataSheet := dataSheet w;
                mailLog := mailLog w ++ [otp_mail e otp] |})
        end
    end.

(** [(now - timestamp) / (1000 * 60) <= 10] *)
Definition within_ten_minutes (now ts : Z) : bool :=
  Qle_bool (inject_Z (now - ts) / inject_Z (1000 * 60)) (inject_Z 10).

(** The loop of [verifyOTP], from the last row down to index 1; [rows] is
    given last row first. *)
Fixpoint scan (now : Z) (email otp : string) (rows : list OtpRow) : TextOutput :=
  match rows with
  | [] => "Invalid OTP"%string
  | row :: rows' =>
      if String.eqb (rowEmail row) email && String.eqb (string_of_Z (rowOTP row)) otp
      then
        if within_ten_minutes now (timestamp row) then "OTP valid"%string
        else "OTP expired"%string
      else scan now email otp rows'
  end.

(** [verifyOTP] reads the sheet and never writes. *)
Definition verifyOTP (now : Z) (parameter : gmap string string) (w : World)
  : TextOutput * World :=
  let email := parameter !! "email"%string in
  let otp := parameter !! "otp"%string in
  if negb (truthy email) || negb (truthy otp) then
    ("Email and OTP are required"%string, w)
  else
    match otpSheet w with
    | None => ("Invalid OTP"%string, w)
    | Some rows =>
        (scan now (default EmptyString email) (default EmptyString otp) (rev rows), w)
    end.

Definition register_fields : list string :=
  [ "email"; "password"; "fullName"; "personalEmail"; "phone"; "organization";
    "city"; "startupName"; "website"; "industry"; "socialImpact";
    "iitkgpAffiliation"; "aiMlCore"; "tis"; "problem"; "solution"; "market";
    "traction"; "revenue"; "extra"; "submittedAt" ]%string.

(** [register]: get or create the data sheet, append the row.
    [sheet_error] is the exception of the spreadsheet service, if any. *)
Definition register (now : Z) (sheet_error : option string)
    (parameter : gmap string string) (w : World) : TextOutput * World :=
  match sheet_error with
  | Some err => ("Registration failed: " +:+ err, w)
  | None =>
      let row := {| rowData := map (fun f => or_empty (parameter !! f)) register_fields;
                    rowDate := now |} in
      ("OK"%string,
       {| otpSheet := otpSheet w;
          dataSheet := Some (default [] (dataSheet w) ++ [row]);
          mailLog := mailLog w |})
  end.

(** [doPost]: dispatch on the [action] parameter. The inputs of the three
    operations are passed along; each operation catches its own errors. *)
Definition doPost (k : Z) (now : Z) (mail_error sheet_error : option string)
    (parameter : gmap string string) (w : World) : TextOutput * World :=
  match parameter !! "action"%string with
  | Some action =>
      if String.eqb action "sendOTP" then sendOTP k now mail_error parameter w
      else if String.eqb action "verifyOTP" then verifyOTP now parameter w
      else if String.eqb action "register" then register now sheet_error parameter w
      else ("Invalid action"%string, w)
  | None => ("Invalid action"%string, w)
  end.

(** *** Runs of the web app *)

(** One call of [doPost] with the inputs it draws from its environment. *)
Record Call := {
  call_k : Z;
  call_now : Z;
  call_mail_error : option string;
  call_sheet_error : option string;
  call_parameter : gmap string string
}.

Definition post (c : Call) (w : World) : TextOutput * World :=
  doPost (call_k c) (call_now c) (call_mail_error c) (call_sheet_error c)
    (call_parameter c) w.

Fixpoint run (cs : list Call) (w : World) : World :=
  match cs with
  | [] => w
  | c :: cs' => run cs' (snd (post c w))
  end.

(** The row matches the identity and the candidate of a verification. *)
Definition matches (email otp : string) (row : OtpRow) : bool :=
  String.eqb (rowEmail row) email && String.eqb (string_of_Z (rowOTP row)) otp.

(** The matching row appended last. *)
Definition latest_match (email otp : string) (rows : list OtpRow) : option OtpRow :=
  hd_error (rev (List.filter (matches email otp) rows)).



(** Every mail of the log carries the identity and the code of a row of the
    "OTPs" sheet. *)
Definition mails_backed (w : World) : Prop :=
  forall m, In m (mailLog w) ->
    exists rows row,
      otpSheet w = Some rows /\ In row rows /\
      m = otp_mail (rowEmail row) (rowOTP row).

End AppsScript.

(** ** Sample inputs of the worked examples *)

Module Sample.

Definition t0 : Z := 1700000000000.
Definition alice : string := "alice@example.org".
Definition bob : string := "bob@example.org".

(** The draws 0, 4, 2, 9, 1, 3 (then zeros): the code "042913". *)
Definition rnd_042913 (i : nat) : nat :=
  nth i [0; 4; 2; 9; 1; 3]%nat 0%nat.

(** The service after one issuance to [alice] at [t0]. *)
Definition issued_once : Server.World :=
  snd (Server.otp_send Server.default_config t0 rnd_042913 true (Some alice)
         Server.empty_world).

(** The same with a transport that throws. *)
Definition issued_unsent : Server.World :=
  snd (Server.otp_send Server.default_config t0 rnd_042913 false (Some alice)
         Server.empty_world).

(** Five issuances to [alice], 100 seconds apart. *)
Definition five_sends : list Server.Request :=
  map (fun k => Server.OtpSend (t0 + k * 100000) rnd_042913 true (Some alice))
      [0; 1; 2; 3; 4].

Definition issued_five : Server.World :=
  Server.run Server.default_config five_sends Server.empty_world.

(** Two issuances to [alice], 880 seconds apart: 21 seconds after the
    second one the window of the first has elapsed. *)
Definition issued_late : Server.World :=
  Server.run Server.default_config
    [ Server.OtpSend t0 rnd_042913 true (Some alice);
      Server.OtpSend (t0 + 880000) rnd_042913 true (Some alice) ]
    Server.empty_world.

(** The service with SMTP selected and no transporter created. *)
Definition no_transport_config : Server.Config := {|
  Server.otpLength := 6;
  Server.otpTtlSeconds := 600;
  Server.rateWindowSeconds := 900;
  Server.rateMaxPerWindow := 5;
  Server.minResendIntervalSeconds := 60;
  Server.emailProvider := Server.Smtp;
  Server.transporter := false;
  Server.emailFrom := "no-reply@example.com";
  Server.spreadsheetId := Some "sheet-1"%string;
  Server.sheetName := None
|}.

(** The service with OTP_LENGTH set to 0. *)
Definition zero_length_config : Server.Config := {|
  Server.otpLength := 0;
  Server.otpTtlSeconds := 600;
  Server.rateWindowSeconds := 900;
  Server.rateMaxPerWindow := 5;
  Server.minResendIntervalSeconds := 60;
  Server.emailProvider := Server.Smtp;
  Server.transporter := true;
  Server.emailFrom := "no-reply@example.com";
  Server.spreadsheetId := Some "sheet-1"%string;
  Server.sheetName := None
|}.

(** The Apps Script spreadsheet with an (empty) "OTPs" sheet. *)
Definition sheet_ready : AppsScript.World :=
  {| AppsScript.otpSheet := Some [];
     AppsScript.dataSheet := None;
     AppsScript.mailLog := [] |}.

Definition email_param (e : string) : gmap string string :=
  {[ "email"%string := e ]}.

Definition verify_param (e o : string) : gmap string string :=
  <[ "otp"%string := o ]> {[ "email"%string := e ]}.

(** The service started without SPREADSHEET_ID. *)
Definition no_sheet_config : Server.Config := {|
  Server.otpLength := 6;
  Server.otpTtlSeconds := 600;
  Server.rateWindowSeconds := 900;
  Server.rateMaxPerWindow := 5;
  Server.minResendIntervalSeconds := 60;
  Server.emailProvider := Server.Smtp;
  Server.transporter := true;
  Server.emailFrom := "no-reply@example.com";
  Server.spreadsheetId := None;
  Server.sheetName := None
|}.

(** A registration payload and a stand-in for its JSON text. *)
Definition payload : gmap string string :=
  <[ "fullName"%string := "Alice"%string ]> {[ "email"%string := alice ]}.

Definition json_stub (body : gmap string string) : string := "{...}".

(** A CORS_ORIGINS value with stray blanks and an empty entry. *)
Definition cors_env : option string :=
  Some " https://a.example , ,https://b.example"%string.

End Sample.

(** ** Properties of the Express service *)

(** *** Strings *)

Section Strings.

Lemma string_app_cons c (a b : string) : String c a +:+ b = String c (a +:+ b).
Proof. reflexivity. Qed.

Lemma string_length_app (a b : string) :
  String.length (a +:+ b) = (String.length a + String.length b)%nat.
Proof.
  induction a as [|c a IH]; [done|].
  rewrite string_app_cons. simpl. by rewrite IH.
Qed.

Lemma string_app_empty_r (a : string) : a +:+ EmptyString = a.
Proof. induction a as [|c a IH]; [done|]. by rewrite string_app_cons, IH. Qed.

Lemma string_app_assoc (a b c : string) : (a +:+ b) +:+ c = a +:+ (b +:+ c).
Proof. induction a as [|x a IH]; [done|]. by rewrite !string_app_cons, IH. Qed.

End Strings.

(** *** The e-mail shape test against the regular expression *)

Section EmailShape.
Import Server.

Lemma all_plain_app a b : all_plain (a +:+ b) = all_plain a && all_plain b.
Proof.
  induction a as [|x a IH]; [done|].
  rewrite string_app_cons. simpl. rewrite IH. by rewrite andb_assoc.
Qed.

Lemma span_plain_spec s a r :
  span_plain s = (a, r) ->
  s = a +:+ r /\ all_plain a = true /\
  (r = EmptyString \/ exists c r', r = String c r' /\ plain c = false).
Proof.
  revert a r. induction s as [|x s IH]; intros a r; simpl.
  - intros [= <- <-]. split; [done|]. split; [done|]. by left.
  - destruct (plain x) eqn:Hx.
    + destruct (span_plain s) as [a' r'] eqn:Hs. intros [= <- <-].
      destruct (IH a' r' eq_refl) as (-> & Ha & Hr).
      split; [done|]. split; [simpl; by rewrite Hx|done].
    + intros [= <- <-]. split; [done|]. split; [done|]. right. by exists x, s.
Qed.

Lemma span_plain_app a c r :
  all_plain a = true -> plain c = false ->
  span_plain (a +:+ String c r) = (a, String c r).
Proof.
  intros Ha Hc. induction a as [|x a IH]; simpl.
  - change (EmptyString +:+ String c r) with (String c r). simpl. by rewrite Hc.
  - simpl in Ha. apply andb_true_iff in Ha as [Hx Ha].
    rewrite Hx, (IH Ha). done.
Qed.

Lemma dot_before_end_spec s :
  dot_before_end s = true <->
  exists b c, s = b +:+ "." +:+ c /\ c <> EmptyString.
Proof.
  induction s as [|x s IH]; simpl.
  - split; [discriminate|]. intros (b & c & H & _). by destruct b.
  - rewrite orb_true_iff, andb_true_iff, negb_true_iff, IH. split.
    + intros [[Hx Hs]|(b & c & -> & Hc)].
      * apply Ascii.eqb_eq in Hx as ->. exists EmptyString, s. split; [done|].
        intros ->. by rewrite String.eqb_refl in Hs.
      * by exists (String x b), c.
    + intros (b & c & H & Hc). destruct b as [|y b].
      * change (EmptyString +:+ "." +:+ c) with (String "." c) in H.
        injection H as -> ->. left. split; [apply Ascii.eqb_refl|].
        by apply String.eqb_neq.
      * rewrite string_app_cons in H. injection H as -> ->. right. by exists b, c.
Qed.

Lemma inner_dot_spec s :
  inner_dot s = true <->
  exists b c, s = b +:+ "." +:+ c /\ b <> EmptyString /\ c <> EmptyString.
Proof.
  destruct s as [|x s]; simpl.
  - split; [discriminate|]. intros (b & c & H & _). by destruct b.
  - rewrite dot_before_end_spec. split.
    + intros (b & c & -> & Hc). by exists (String x b), c.
    + intros (b & c & H & Hb & Hc). destruct b as [|y b]; [done|].
      rewrite string_app_cons in H. injection H as -> ->. by exists b, c.
Qed.

(** The test accepts exactly the strings the regular expression matches. *)
Lemma test_email_shape s : test_email s = true <-> email_shape s.
Proof.
  unfold test_email, email_shape. split.
  - destruct (span_plain s) as [a r] eqn:Hsp.
    destruct (span_plain_spec s a r Hsp) as (-> & Ha & _).
    destruct r as [|x r]; [discriminate|].
    rewrite !andb_true_iff, negb_true_iff.
    intros [[[Hx Hne] Hr] Hd].
    apply Ascii.eqb_eq in Hx as ->. apply String.eqb_neq in Hne.
    apply inner_dot_spec in Hd as (b & c & -> & Hb & Hc).
    rewrite !all_plain_app in Hr. apply andb_true_iff in Hr as [Hpb Hpc].
    apply andb_true_iff in Hpc as [_ Hpc].
    exists a, b, c. by repeat split.
  - intros (a & b & c & -> & Ha & Hb & Hc & Hpa & Hpb & Hpc).
    change ("@" +:+ b +:+ "." +:+ c) with (String "@"%char (b +:+ "." +:+ c)).
    rewrite span_plain_app by done.
    rewrite Ascii.eqb_refl. simpl.
    apply String.eqb_neq in Ha. rewrite Ha. simpl.
    rewrite all_plain_app, Hpb. simpl.
    change (EmptyString +:+ c) with c. rewrite Hpc. simpl.
    apply inner_dot_spec. by exists b, c.
Qed.

End EmailShape.



Section ServerVerify.
Import Server.

Lemma truthy_Some (s : string) : truthy (Some s) = true <-> s <> EmptyString.
Proof.
  unfold truthy. destruct (String.eqb_spec s EmptyString) as [->|Hne]; simpl.
  - split; [discriminate | intros H; by destruct H].
  - split; auto.
Qed.

Lemma truthy_default (v : option string) :
  truthy v = true -> v = Some (default EmptyString v).
Proof. destruct v; [reflexivity | discriminate]. Qed.

(** What a successful verification has checked and what it writes. *)
Lemma otp_verify_ok_inv now email otp w w' :
  otp_verify now email otp w = (JsonOk, w') ->
  exists e o entry,
    email = Some e /\ otp = Some o /\ e <> EmptyString /\ o <> EmptyString /\
    otpStore w !! e = Some entry /\ code entry = Some o /\
    now <= expiresAt entry /\
    w' = set_store w (<[e := clear_code entry]> (otpStore w)).
Proof.
  unfold otp_verify. intros H.
  destruct email as [e|]; [|destruct otp; discriminate].
  destruct otp as [o|]; [|discriminate].
  destruct (truthy (Some e)) eqn:He; [|discriminate].
  destruct (truthy (Some o)) eqn:Ho; [|discriminate].
  simpl in H.
  destruct (otpStore w !! e) as [entry|] eqn:Hs; [|discriminate].
  destruct (truthy (code entry)) eqn:Hc; [|discriminate].
  simpl in H.
  destruct (expiresAt entry <? now) eqn:Hx; [discriminate|].
  destruct (String.eqb o (default EmptyString (code entry))) eqn:Hm; [|discriminate].
  simpl in H. injection H as <-.
  apply String.eqb_eq in Hm. apply Z.ltb_ge in Hx.
  exists e, o, entry. repeat split; try done.
  - by apply truthy_Some.
  - by apply truthy_Some.
  - rewrite (truthy_default _ Hc). by rewrite <- Hm.
Qed.

(** A verification that answers anything but success returns the process
    state it was given. *)
Lemma otp_verify_error_same now email otp w :
  fst (otp_verify now email otp w) <> JsonOk ->
  snd (otp_verify now email otp w) = w.
Proof.
  unfold otp_verify.
  destruct email as [e|]; [|by destruct otp].
  destruct otp as [o|]; [|done].
  destruct (negb (truthy (Some e)) || negb (truthy (Some o))); [done|].
  destruct (otpStore w !! e) as [entry|]; [|done].
  destruct (negb (truthy (code entry))); [done|].
  destruct (expiresAt entry <? now); [done|].
  destruct (negb (String.eqb o (default EmptyString (code entry)))); [done|].
  simpl. intros H. by destruct H.
Qed.

End ServerVerify.

Section ServerVerifyClaims.
Import Server.

(** C7. A verify call that does not succeed (NotFound, Expired, Mismatch,
    and also the missing-input answer) returns the process state unchanged:
    the identity's record, every other record and the mail log are what
    they were, so nothing is re-issued, cleared or counted. *)
Theorem verify_failure_leaves_state now email otp w :
  fst (otp_verify now email otp w) <> JsonOk ->
  snd (otp_verify now email otp w) = w.
Proof. apply otp_verify_error_same. Qed.

Lemma verify_failure_leaves_state_witness :
  fst (otp_verify (Sample.t0 + 1000) (Some Sample.alice) (Some "000000"%string)
         Sample.issued_once) = Mismatch /\
  snd (otp_verify (Sample.t0 + 1000) (Some Sample.alice) (Some "000000"%string)
         Sample.issued_once) = Sample.issued_once.
Proof.
  split; [vm_compute; reflexivity|].
  apply (verify_failure_leaves_state (Sample.t0 + 1000) (Some Sample.alice)
           (Some "000000"%string) Sample.issued_once).
  vm_compute. discriminate.
Defined.

(** C8. A successful verify rewrites the identity's record with the code
    cleared and the expiry, last-issued time, window start and window
    count as they were; no other record and no mail is touched. *)
Theorem verify_success_clears_code_only now e otp w :
  fst (otp_verify now (Some e) otp w) = JsonOk ->
  exists entry,
    otpStore w !! e = Some entry /\
    otpStore (snd (otp_verify now (Some e) otp w)) !! e =
      Some {| code := None;
              expiresAt := expiresAt entry;
              lastSentAt := lastSentAt entry;
              windowStartAt := windowStartAt entry;
              sentCountInWindow := sentCountInWindow entry |} /\
    (forall e', e' <> e ->
       otpStore (snd (otp_verify now (Some e) otp w)) !! e' = otpStore w !! e') /\
    mailLog (snd (otp_verify now (Some e) otp w)) = mailLog w.
Proof.
  intros Hok.
  destruct (otp_verify now (Some e) otp w) as [r w'] eqn:Hv.
  simpl in Hok. subst r.
  apply otp_verify_ok_inv in Hv
    as (e0 & o & entry & [= <-] & -> & _ & _ & Hs & _ & _ & ->).
  exists entry. simpl. split; [done|]. split; [|split; [|done]].
  - by rewrite lookup_insert_eq.
  - intros e' Hne. by rewrite lookup_insert_ne.
Qed.

Lemma verify_success_clears_code_only_witness :
  exists entry,
    otpStore Sample.issued_once !! Sample.alice = Some entry /\
    sentCountInWindow entry = 1 /\
    otpStore (snd (otp_verify (Sample.t0 + 500000) (Some Sample.alice)
                     (Some "042913"%string) Sample.issued_once)) !! Sample.alice =
      Some {| code := None;
              expiresAt := expiresAt entry;
              lastSentAt := lastSentAt entry;
              windowStartAt := windowStartAt entry;
              sentCountInWindow := sentCountInWindow entry |}.
Proof.
  destruct (verify_success_clears_code_only (Sample.t0 + 500000) Sample.alice
              (Some "042913"%string) Sample.issued_once)
    as (entry & Hs & Hs' & _); [vm_compute; reflexivity|].
  exists entry. split; [exact Hs|]. split; [|exact Hs'].
  assert (Hc : otpStore Sample.issued_once !! Sample.alice =
               Some {| code := Some "042913"%string; expiresAt := Sample.t0 + 600000;
                       lastSentAt := Sample.t0; windowStartAt := Sample.t0;
                       sentCountInWindow := 1 |}) by (vm_compute; reflexivity).
  rewrite Hc in Hs. injection Hs as <-. reflexivity.
Defined.

End ServerVerifyClaims.

(** *** The issuance handler, case by case *)

Section ServerSend.
Import Server.
Variable cfg : Config.

Lemma test_email_nonempty e : test_email e = true -> e <> EmptyString.
Proof. intros H ->. discriminate. Qed.

Lemma issued_true r : issued r = true <-> r = JsonOk \/ r = NotifierFailure.
Proof.
  unfold issued. rewrite orb_true_iff, !bool_decide_eq_true. tauto.
Qed.

Lemma otp_send_invalid now rnd ok e w :
  test_email e = false ->
  otp_send cfg now rnd ok (Some e) w = (InvalidIdentity, w).
Proof.
  intros H. unfold otp_send. rewrite H.
  by rewrite orb_true_r.
Qed.

Lemma otp_send_rate_limited now rnd ok e w :
  test_email e = true ->
  rateMaxPerWindow cfg <= sentCountInWindow (current_entry cfg now e w) ->
  otp_send cfg now rnd ok (Some e) w = (RateLimited, window_touched cfg now e w).
Proof.
  intros Hv Hc. unfold otp_send. rewrite Hv.
  pose proof (test_email_nonempty e Hv) as Hne.
  apply truthy_Some in Hne. rewrite Hne. simpl.
  apply Z.leb_le in Hc. by rewrite Hc.
Qed.

Lemma otp_send_too_soon now rnd ok e w :
  test_email e = true ->
  sentCountInWindow (current_entry cfg now e w) < rateMaxPerWindow cfg ->
  now - lastSentAt (current_entry cfg now e w) < minResendIntervalSeconds cfg * 1000 ->
  otp_send cfg now rnd ok (Some e) w = (TooSoon, window_touched cfg now e w).
Proof.
  intros Hv Hc Ht. unfold otp_send. rewrite Hv.
  pose proof (test_email_nonempty e Hv) as Hne.
  apply truthy_Some in Hne. rewrite Hne. simpl.
  apply Z.leb_gt in Hc. rewrite Hc.
  apply Z.ltb_lt in Ht. by rewrite Ht.
Qed.

Lemma otp_send_issue now rnd ok e w :
  test_email e = true ->
  sentCountInWindow (current_entry cfg now e w) < rateMaxPerWindow cfg ->
  minResendIntervalSeconds cfg * 1000 <= now - lastSentAt (current_entry cfg now e w) ->
  let c := generateOtp (otpLength cfg) rnd in
  let out := sendEmail cfg ok (otp_mail cfg e c) (mailLog w) in
  otp_send cfg now rnd ok (Some e) w =
    (if snd out then JsonOk else NotifierFailure,
     {| otpStore := <[e := issue_entry cfg now c (current_entry cfg now e w)]> (otpStore w);
        mailLog := fst out |}).
Proof.
  intros Hv Hc Ht. unfold otp_send. rewrite Hv.
  pose proof (test_email_nonempty e Hv) as Hne.
  apply truthy_Some in Hne. rewrite Hne. simpl.
  apply Z.leb_gt in Hc. rewrite Hc.
  apply Z.ltb_ge in Ht. rewrite Ht.
  destruct (sendEmail cfg ok _ (mailLog w)) as [log2 sent]. simpl.
  by destruct sent.
Qed.

(** The three-way split every request of a well-shaped identity takes. *)
Lemma otp_send_split now rnd ok e w :
  test_email e = true ->
  (rateMaxPerWindow cfg <= sentCountInWindow (current_entry cfg now e w) /\
   otp_send cfg now rnd ok (Some e) w = (RateLimited, window_touched cfg now e w)) \/
  (sentCountInWindow (current_entry cfg now e w) < rateMaxPerWindow cfg /\
   now - lastSentAt (current_entry cfg now e w) < minResendIntervalSeconds cfg * 1000 /\
   otp_send cfg now rnd ok (Some e) w = (TooSoon, window_touched cfg now e w)) \/
  (sentCountInWindow (current_entry cfg now e w) < rateMaxPerWindow cfg /\
   minResendIntervalSeconds cfg * 1000 <= now - lastSentAt (current_entry cfg now e w) /\
   issued (fst (otp_send cfg now rnd ok (Some e) w)) = true /\
   otpStore (snd (otp_send cfg now rnd ok (Some e) w)) =
     <[e := issue_entry cfg now (generateOtp (otpLength cfg) rnd)
              (current_entry cfg now e w)]> (otpStore w)).
Proof.
  intros Hv.
  destruct (Z_le_gt_dec (rateMaxPerWindow cfg)
              (sentCountInWindow (current_entry cfg now e w))) as [Hc|Hc].
  { left. split; [done|]. by apply otp_send_rate_limited. }
  right.
  destruct (Z_lt_ge_dec (now - lastSentAt (current_entry cfg now e w))
              (minResendIntervalSeconds cfg * 1000)) as [Ht|Ht].
  { left. repeat split; [lia | done |]. apply otp_send_too_soon; [done | lia | done]. }
  right. split; [lia|]. split; [lia|].
  rewrite otp_send_issue by (done || lia). simpl.
  split; [|done].
  apply issued_true. destruct (snd _); auto.
Qed.

(** What an answer that follows an issuance tells. *)
Lemma otp_send_issued_inv now rnd ok email w :
  issued (fst (otp_send cfg now rnd ok email w)) = true ->
  exists e,
    email = Some e /\ test_email e = true /\
    sentCountInWindow (current_entry cfg now e w) < rateMaxPerWindow cfg /\
    minResendIntervalSeconds cfg * 1000 <= now - lastSentAt (current_entry cfg now e w) /\
    otpStore (snd (otp_send cfg now rnd ok email w)) =
      <[e := issue_entry cfg now (generateOtp (otpLength cfg) rnd)
               (current_entry cfg now e w)]> (otpStore w).
Proof.
  intros Hi. destruct email as [e|]; [|discriminate].
  exists e. split; [done|].
  destruct (test_email e) eqn:Hv.
  2:{ rewrite otp_send_invalid in Hi by done. discriminate. }
  split; [done|].
  destruct (otp_send_split now rnd ok e w Hv) as [[_ H]|[(_ & _ & H)|(Hc & Ht & _ & Hs)]].
  - rewrite H in Hi. discriminate.
  - rewrite H in Hi. discriminate.
  - done.
Qed.

(** The window reset keeps the code, its expiry and the last-issued time. *)
Lemma reset_window_code now entry : code (reset_window cfg now entry) = code entry.
Proof. unfold reset_window. by destruct (_ <? _). Qed.

Lemma reset_window_expiresAt now entry :
  expiresAt (reset_window cfg now entry) = expiresAt entry.
Proof. unfold reset_window. by destruct (_ <? _). Qed.

Lemma reset_window_lastSentAt now entry :
  lastSentAt (reset_window cfg now entry) = lastSentAt entry.
Proof. unfold reset_window. by destruct (_ <? _). Qed.

Lemma window_touched_lookup now e w :
  otpStore (window_touched cfg now e w) !! e = reset_window cfg now <$> otpStore w !! e.
Proof.
  unfold window_touched, current_entry.
  destruct (otpStore w !! e) as [entry|] eqn:Hs; simpl.
  - by rewrite lookup_insert_eq.
  - by rewrite Hs.
Qed.

Lemma window_touched_other now e e' w :
  e' <> e -> otpStore (window_touched cfg now e w) !! e' = otpStore w !! e'.
Proof.
  intros Hne. unfold window_touched.
  destruct (otpStore w !! e); simpl; [|done].
  by rewrite lookup_insert_ne.
Qed.

Lemma window_touched_mailLog now e w :
  mailLog (window_touched cfg now e w) = mailLog w.
Proof. unfold window_touched. by destruct (otpStore w !! e). Qed.

(** A refused request leaves the world as it was, up to the window reset of
    the identity's own record. *)
Lemma otp_send_refused_inv now rnd ok email w :
  issued (fst (otp_send cfg now rnd ok email w)) = false ->
  snd (otp_send cfg now rnd ok email w) = w \/
  exists e, email = Some e /\
    snd (otp_send cfg now rnd ok email w) = window_touched cfg now e w.
Proof.
  intros Hi. destruct email as [e|]; [|by left].
  destruct (test_email e) eqn:Hv.
  2:{ left. by rewrite otp_send_invalid. }
  right. exists e. split; [done|].
  destruct (otp_send_split now rnd ok e w Hv) as [[_ H]|[(_ & _ & H)|(_ & _ & H & _)]].
  - by rewrite H.
  - by rewrite H.
  - rewrite H in Hi. discriminate.
Qed.

End ServerSend.

(** *** Runs of requests *)

Section ServerRuns.
Import Server.
Variable cfg : Config.

Lemma run_app rs1 rs2 w : run cfg (rs1 ++ rs2) w = run cfg rs2 (run cfg rs1 w).
Proof. revert w. induction rs1 as [|r rs1 IH]; intros w; simpl; [done|]. apply IH. Qed.

Lemma otp_send_other now rnd ok email e w :
  email <> Some e ->
  otpStore (snd (otp_send cfg now rnd ok email w)) !! e = otpStore w !! e.
Proof.
  intros Hne.
  destruct (issued (fst (otp_send cfg now rnd ok email w))) eqn:Hi.
  - apply otp_send_issued_inv in Hi as (e' & -> & _ & _ & _ & ->).
    rewrite lookup_insert_ne; [done | congruence].
  - apply otp_send_refused_inv in Hi as [->|(e' & -> & ->)]; [done|].
    apply window_touched_other. congruence.
Qed.

Lemma otp_verify_other now email otp e w :
  email <> Some e ->
  otpStore (snd (otp_verify now email otp w)) !! e = otpStore w !! e.
Proof.
  intros Hne.
  destruct (otp_verify now email otp w) as [r w'] eqn:Hv.
  destruct (decide (r = JsonOk)) as [->|Hr].
  - apply otp_verify_ok_inv in Hv as (e' & o & entry & -> & _ & _ & _ & _ & _ & _ & ->).
    simpl. rewrite lookup_insert_ne; [done | congruence].
  - pose proof (otp_verify_error_same now email otp w) as H.
    rewrite Hv in H. simpl in *. by rewrite H.
Qed.

Lemma concerns_false e r :
  concerns e r = false ->
  match r with
  | OtpSend _ _ _ email => email <> Some e
  | OtpVerify _ email _ => email <> Some e
  end.
Proof.
  destruct r as [? ? ? [e'|]|? [e'|] ?]; simpl; try done.
  - intros H [= ->]. by rewrite String.eqb_refl in H.
  - intros H [= ->]. by rewrite String.eqb_refl in H.
Qed.

(** Requests that name other identities do not touch the record of [e]. *)
Lemma handle_other e r w :
  concerns e r = false ->
  otpStore (snd (handle cfg r w)) !! e = otpStore w !! e.
Proof.
  intros H. apply concerns_false in H. destruct r; simpl.
  - by apply otp_send_other.
  - by apply otp_verify_other.
Qed.

Lemma run_other e rs w :
  forallb (fun r => negb (concerns e r)) rs = true ->
  otpStore (run cfg rs w) !! e = otpStore w !! e.
Proof.
  revert w. induction rs as [|r rs IH]; intros w; simpl; [done|].
  rewrite andb_true_iff, negb_true_iff. intros [Hr Hrs].
  rewrite IH by done. by apply handle_other.
Qed.

Lemma stored_code_other e r w :
  concerns e r = false -> stored_code (snd (handle cfg r w)) e = stored_code w e.
Proof. intros H. unfold stored_code. by rewrite handle_other. Qed.

(** A verification either leaves the stored code of [e] or clears it. *)
Lemma otp_verify_stored_code now email otp e w :
  stored_code (snd (otp_verify now email otp w)) e = stored_code w e \/
  stored_code (snd (otp_verify now email otp w)) e = None.
Proof.
  destruct (decide (email = Some e)) as [->|Hne].
  2:{ left. unfold stored_code. by rewrite otp_verify_other. }
  destruct (otp_verify now (Some e) otp w) as [r w'] eqn:Hv.
  destruct (decide (r = JsonOk)) as [->|Hr].
  - right.
    apply otp_verify_ok_inv in Hv as (e' & o & entry & [= <-] & _ & _ & _ & _ & _ & _ & ->).
    unfold stored_code. simpl. by rewrite lookup_insert_eq.
  - left. pose proof (otp_verify_error_same now (Some e) otp w) as H.
    rewrite Hv in H. simpl in *. by rewrite H.
Qed.

(** A refused issuance request leaves the stored code of every identity. *)
Lemma otp_send_refused_stored_code now rnd ok email e w :
  issued (fst (otp_send cfg now rnd ok email w)) = false ->
  stored_code (snd (otp_send cfg now rnd ok email w)) e = stored_code w e.
Proof.
  intros Hi. apply otp_send_refused_inv in Hi as [->|(e' & -> & ->)]; [done|].
  unfold stored_code.
  destruct (decide (e = e')) as [->|Hne].
  - rewrite window_touched_lookup.
    destruct (otpStore w !! e'); simpl; [|done]. apply reset_window_code.
  - by rewrite window_touched_other.
Qed.

(** Without an issuance request for [e], an identity without a stored code
    stays without one. *)
Lemma handle_keeps_no_code e r w :
  is_send_for e r = false ->
  stored_code w e = None ->
  stored_code (snd (handle cfg r w)) e = None.
Proof.
  intros Hr Hn. destruct r as [now rnd ok email|now email otp]; simpl.
  - assert (email <> Some e) as Hne.
    { intros ->. simpl in Hr. by rewrite String.eqb_refl in Hr. }
    unfold stored_code. rewrite otp_send_other by done. exact Hn.
  - destruct (otp_verify_stored_code now email otp e w) as [->| ->]; done.
Qed.

Lemma run_keeps_no_code e rs w :
  forallb (fun r => negb (is_send_for e r)) rs = true ->
  stored_code w e = None ->
  stored_code (run cfg rs w) e = None.
Proof.
  revert w. induction rs as [|r rs IH]; intros w; simpl; [done|].
  rewrite andb_true_iff, negb_true_iff. intros [Hr Hrs] Hn.
  apply IH; [done|]. by apply handle_keeps_no_code.
Qed.

End ServerRuns.

(** *** The verification handler, check by check *)

Section ServerVerifyOrder.
Import Server.

Lemma otp_verify_not_found now e o w :
  e <> EmptyString -> o <> EmptyString ->
  truthy (stored_code w e) = false ->
  otp_verify now (Some e) (Some o) w = (NotFound, w).
Proof.
  intros He Ho Hc. unfold otp_verify.
  apply truthy_Some in He, Ho. rewrite He, Ho. simpl.
  unfold stored_code in Hc.
  destruct (otpStore w !! e) as [entry|]; [|done].
  by rewrite Hc.
Qed.

Lemma otp_verify_expired now e o w entry :
  e <> EmptyString -> o <> EmptyString ->
  otpStore w !! e = Some entry ->
  truthy (code entry) = true ->
  expiresAt entry < now ->
  otp_verify now (Some e) (Some o) w = (Expired, w).
Proof.
  intros He Ho Hs Hc Hx. unfold otp_verify.
  apply truthy_Some in He, Ho. rewrite He, Ho, Hs, Hc. simpl.
  apply Z.ltb_lt in Hx. by rewrite Hx.
Qed.

Lemma otp_verify_mismatch now e o w entry :
  e <> EmptyString -> o <> EmptyString ->
  otpStore w !! e = Some entry ->
  truthy (code entry) = true ->
  now <= expiresAt entry ->
  code entry <> Some o ->
  otp_verify now (Some e) (Some o) w = (Mismatch, w).
Proof.
  intros He Ho Hs Hc Hx Hm. unfold otp_verify.
  apply truthy_Some in He, Ho. rewrite He, Ho, Hs, Hc. simpl.
  apply Z.ltb_ge in Hx. rewrite Hx.
  destruct (String.eqb_spec o (default EmptyString (code entry))) as [Heq|Hne]; [|done].
  exfalso. apply Hm. rewrite (truthy_default _ Hc). by rewrite <- Heq.
Qed.

Lemma otp_verify_ok now e o w entry :
  e <> EmptyString -> o <> EmptyString ->
  otpStore w !! e = Some entry ->
  code entry = Some o ->
  now <= expiresAt entry ->
  otp_verify now (Some e) (Some o) w =
    (JsonOk, set_store w (<[e := clear_code entry]> (otpStore w))).
Proof.
  intros He Ho Hs Hc Hx. unfold otp_verify.
  assert (truthy (code entry) = true) as Ht by (rewrite Hc; by apply truthy_Some).
  apply truthy_Some in He, Ho. rewrite He, Ho, Hs, Ht. simpl.
  apply Z.ltb_ge in Hx. rewrite Hx, Hc. simpl.
  by rewrite String.eqb_refl.
Qed.

(** C2. For an identity and a candidate that pass the presence check:
    without a record or with no active code the answer is NotFound
    (whatever the time and the candidate), in particular in every state
    reached without an issuance request for the identity; with an active
    code past its expiry the answer is Expired, whatever the candidate,
    the stored code included; with an active, unexpired code and a
    candidate that differs from it as a string the answer is Mismatch. *)
Theorem verify_checks_in_order now e o w :
  e <> EmptyString -> o <> EmptyString ->
  (truthy (stored_code w e) = false ->
     fst (otp_verify now (Some e) (Some o) w) = NotFound) /\
  (forall cfg rs,
     forallb (fun r => negb (is_send_for e r)) rs = true ->
     fst (otp_verify now (Some e) (Some o) (run cfg rs empty_world)) = NotFound) /\
  (forall entry,
     otpStore w !! e = Some entry -> truthy (code entry) = true ->
     (expiresAt entry < now ->
        fst (otp_verify now (Some e) (Some o) w) = Expired) /\
     (now <= expiresAt entry -> code entry <> Some o ->
        fst (otp_verify now (Some e) (Some o) w) = Mismatch)).
Proof.
  intros He Ho. split; [|split].
  - intros Hc. by rewrite otp_verify_not_found.
  - intros cfg rs Hrs. rewrite otp_verify_not_found; try done.
    rewrite (run_keeps_no_code cfg e rs empty_world Hrs); done.
  - intros entry Hs Hc. split.
    + intros Hx. by rewrite (otp_verify_expired now e o w entry).
    + intros Hx Hm. by rewrite (otp_verify_mismatch now e o w entry).
Qed.

Lemma verify_checks_in_order_witness :
  fst (otp_verify (Sample.t0 + 700000) (Some Sample.alice) (Some "042913"%string)
         Sample.issued_once) = Expired /\
  fst (otp_verify (Sample.t0 + 500000) (Some Sample.alice) (Some "42913"%string)
         Sample.issued_once) = Mismatch /\
  fst (otp_verify (Sample.t0 + 500000) (Some Sample.bob) (Some "042913"%string)
         Sample.issued_once) = NotFound.
Proof.
  split; [|split].
  - destruct (verify_checks_in_order (Sample.t0 + 700000) Sample.alice "042913"
                Sample.issued_once) as (_ & _ & H); [discriminate..|].
    eapply H; [vm_compute; reflexivity | reflexivity | vm_compute; reflexivity].
  - destruct (verify_checks_in_order (Sample.t0 + 500000) Sample.alice "42913"
                Sample.issued_once) as (_ & _ & H); [discriminate..|].
    eapply H; [vm_compute; reflexivity | reflexivity | vm_compute; discriminate
              | vm_compute; discriminate].
  - destruct (verify_checks_in_order (Sample.t0 + 500000) Sample.bob "042913"
                Sample.issued_once) as (H & _ & _); [discriminate..|].
    apply H. vm_compute. reflexivity.
Defined.

End ServerVerifyOrder.

(** *** generateOtp *)

Section GenerateOtp.
Import Server.

Lemma char_at_digits (k : nat) :
  (k < 10)%nat -> char_at digits k = String (digit k) EmptyString.
Proof.
  intros H. do 10 (destruct k as [|k]; [reflexivity|]). lia.
Qed.

Lemma char_at_nonempty s k : (1 <= String.length (char_at s k))%nat.
Proof. unfold char_at. destruct (get k s); simpl; lia. Qed.

Lemma digit_decimal k : (k < 10)%nat -> is_decimal (digit k) = true.
Proof. intros H. do 10 (destruct k as [|k]; [reflexivity|]). lia. Qed.

Lemma digit_inj j k : (j < 10)%nat -> (k < 10)%nat -> digit j = digit k -> j = k.
Proof.
  intros Hj Hk H. apply (f_equal nat_of_ascii) in H. unfold digit in H.
  rewrite !nat_ascii_embedding in H by lia. lia.
Qed.

Lemma decimal_is_digit c :
  is_decimal c = true -> exists k, (k < 10)%nat /\ c = digit k.
Proof.
  unfold is_decimal. rewrite andb_true_iff, !Nat.leb_le. intros [Hlo Hhi].
  exists (nat_of_ascii c - 48)%nat. split; [lia|].
  unfold digit. replace (48 + (nat_of_ascii c - 48))%nat with (nat_of_ascii c) by lia.
  by rewrite ascii_nat_embedding.
Qed.

Lemma generateOtp_loop_draws n i rnd otp :
  generateOtp_loop n i rnd otp = otp +:+ code_of_draws (map rnd (seq i n)).
Proof.
  revert i otp. induction n as [|n IH]; intros i otp; simpl.
  - by rewrite string_app_empty_r.
  - rewrite IH. by rewrite string_app_assoc.
Qed.

Lemma generateOtp_draws len rnd :
  generateOtp len rnd = code_of_draws (map rnd (seq 0 (Z.to_nat len))).
Proof. unfold generateOtp. by rewrite generateOtp_loop_draws. Qed.

Lemma code_of_draws_length_ge ds : (length ds <= String.length (code_of_draws ds))%nat.
Proof.
  induction ds as [|d ds IH]; simpl; [lia|].
  rewrite string_length_app. pose proof (char_at_nonempty digits d). lia.
Qed.

Lemma code_of_draws_decimal ds :
  Forall (fun d => (d < 10)%nat) ds ->
  String.length (code_of_draws ds) = length ds /\ all_decimal (code_of_draws ds) = true.
Proof.
  induction 1 as [|d ds Hd _ [IHl IHd]]; [done|].
  cbn [code_of_draws]. rewrite char_at_digits by done.
  rewrite string_app_cons.
  change (EmptyString +:+ code_of_draws ds) with (code_of_draws ds).
  cbn [String.length all_decimal length].
  rewrite IHl, IHd, digit_decimal by done. done.
Qed.

Lemma code_of_draws_inj ds1 ds2 :
  Forall (fun d => (d < 10)%nat) ds1 -> Forall (fun d => (d < 10)%nat) ds2 ->
  code_of_draws ds1 = code_of_draws ds2 -> ds1 = ds2.
Proof.
  intros H1. revert ds2. induction H1 as [|d1 ds1 Hd1 _ IH]; intros ds2 H2 Heq.
  - destruct H2 as [|d2 ds2 Hd2 _]; [done|].
    simpl in Heq. rewrite char_at_digits in Heq by done. discriminate.
  - destruct H2 as [|d2 ds2 Hd2 H2].
    { simpl in Heq. rewrite char_at_digits in Heq by done. discriminate. }
    simpl in Heq. rewrite !char_at_digits in Heq by done.
    simpl in Heq. injection Heq as Hd Hrest.
    f_equal; [by apply digit_inj | by apply IH].
Qed.

Lemma code_of_draws_surj s :
  all_decimal s = true ->
  exists ds, Forall (fun d => (d < 10)%nat) ds /\
             length ds = String.length s /\ code_of_draws ds = s.
Proof.
  induction s as [|c s IH]; simpl.
  - intros _. exists []. by repeat split.
  - rewrite andb_true_iff. intros [Hc Hs].
    destruct (IH Hs) as (ds & Hds & Hlen & Hcode).
    destruct (decimal_is_digit c Hc) as (k & Hk & ->).
    exists (k :: ds). split; [by constructor|]. split; [simpl; by rewrite Hlen|].
    simpl. rewrite char_at_digits by done. simpl. by rewrite Hcode.
Qed.

(** A positive length gives a non-empty code, whatever the draws. *)
Lemma generateOtp_nonempty len rnd : 0 < len -> generateOtp len rnd <> EmptyString.
Proof.
  intros Hlen Heq. apply (f_equal String.length) in Heq.
  rewrite generateOtp_draws in Heq.
  pose proof (code_of_draws_length_ge (map rnd (seq 0 (Z.to_nat len)))) as H.
  rewrite length_map, length_seq in H. simpl in Heq. lia.
Qed.

Lemma draws_in_range (rnd : nat -> nat) i n :
  (forall j, (rnd j < 10)%nat) -> Forall (fun d => (d < 10)%nat) (map rnd (seq i n)).
Proof. intros H. apply Forall_forall. intros d Hd. apply in_map_iff in Hd as (j & <- & _). apply H. Qed.

(** With draws below ten the code has the requested number of characters,
    all of them decimal digits. *)
Lemma generateOtp_shape len rnd :
  (forall j, (rnd j < 10)%nat) ->
  String.length (generateOtp len rnd) = Z.to_nat len /\
  all_decimal (generateOtp len rnd) = true.
Proof.
  intros H. rewrite generateOtp_draws.
  destruct (code_of_draws_decimal _ (draws_in_range rnd 0 (Z.to_nat len) H)) as [Hl Hd].
  by rewrite length_map, length_seq in Hl.
Qed.

(** Two draw sequences that give the same code agree on the draws used. *)
Lemma generateOtp_inj len rnd1 rnd2 :
  (forall j, (rnd1 j < 10)%nat) -> (forall j, (rnd2 j < 10)%nat) ->
  generateOtp len rnd1 = generateOtp len rnd2 ->
  forall j, (j < Z.to_nat len)%nat -> rnd1 j = rnd2 j.
Proof.
  intros H1 H2 Heq j Hj. rewrite !generateOtp_draws in Heq.
  apply code_of_draws_inj in Heq; try by apply draws_in_range.
  assert (nth j (map rnd1 (seq 0 (Z.to_nat len))) 0%nat =
          nth j (map rnd2 (seq 0 (Z.to_nat len))) 0%nat) as Hn by (by rewrite Heq).
  rewrite !(nth_indep _ 0%nat (rnd1 0%nat)) in Hn by (rewrite length_map, length_seq; lia).
  rewrite map_nth in Hn.
  rewrite (nth_indep _ (rnd1 0%nat) (rnd2 0%nat)) in Hn by (rewrite length_map, length_seq; lia).
  rewrite map_nth in Hn. by rewrite seq_nth in Hn by lia.
Qed.

(** Every digit string of the requested length is the code of some draws. *)
Lemma generateOtp_surj len s :
  String.length s = Z.to_nat len -> all_decimal s = true ->
  exists rnd, (forall j, (rnd j < 10)%nat) /\ generateOtp len rnd = s.
Proof.
  intros Hlen Hs. destruct (code_of_draws_surj s Hs) as (ds & Hds & Hl & Hcode).
  exists (fun j => nth j ds 0%nat). split.
  - intros j. destruct (Nat.lt_ge_cases j (length ds)) as [Hj|Hj].
    + rewrite Forall_forall in Hds. apply Hds. by apply nth_In.
    + rewrite nth_overflow by done. lia.
  - rewrite generateOtp_draws, <- Hlen, <- Hl.
    rewrite <- Hcode. f_equal.
    clear. induction ds as [|d ds IH]; simpl; [done|].
    f_equal. rewrite <- seq_shift, map_map. exact IH.
Qed.

End GenerateOtp.


(** *** Window accounting along a run *)

Section ServerWindow.
Import Server.
Variable cfg : Config.

Lemma otp_verify_accounting now email otp e w :
  accounting <$> otpStore (snd (otp_verify now email otp w)) !! e =
  accounting <$> otpStore w !! e.
Proof.
  destruct (otp_verify now email otp w) as [r w'] eqn:Hv.
  destruct (decide (r = JsonOk)) as [->|Hr].
  - apply otp_verify_ok_inv in Hv as (e' & o & entry & -> & _ & _ & _ & Hs & _ & _ & ->).
    simpl. destruct (decide (e = e')) as [->|Hne].
    + by rewrite lookup_insert_eq, Hs.
    + by rewrite lookup_insert_ne.
  - pose proof (otp_verify_error_same now email otp w) as H.
    rewrite Hv in H. simpl in *. by rewrite H.
Qed.

(** Requests other than issuance requests for [e] keep the accounting of
    [e]'s record. *)
Lemma handle_accounting e r w :
  is_send_for e r = false ->
  accounting <$> otpStore (snd (handle cfg r w)) !! e = accounting <$> otpStore w !! e.
Proof.
  intros Hr. destruct r as [now rnd ok email|now email otp]; simpl.
  - assert (email <> Some e) as Hne.
    { intros ->. simpl in Hr. by rewrite String.eqb_refl in Hr. }
    by rewrite otp_send_other.
  - apply otp_verify_accounting.
Qed.

Lemma run_accounting e rs w :
  forallb (fun r => negb (is_send_for e r)) rs = true ->
  accounting <$> otpStore (run cfg rs w) !! e = accounting <$> otpStore w !! e.
Proof.
  revert w. induction rs as [|r rs IH]; intros w; simpl; [done|].
  rewrite andb_true_iff, negb_true_iff. intros [Hr Hrs].
  rewrite IH by done. by apply handle_accounting.
Qed.

(** The entry an issuance request works on depends on the record's
    accounting only, as far as its own accounting goes. *)
Lemma current_entry_accounting now e w w' :
  accounting <$> otpStore w' !! e = accounting <$> otpStore w !! e ->
  accounting (current_entry cfg now e w') = accounting (current_entry cfg now e w).
Proof.
  unfold current_entry. intros H.
  destruct (otpStore w' !! e) as [a|], (otpStore w !! e) as [b|]; simpl in *; try done.
  injection H as Hx Hl Hw Hc.
  unfold reset_window. rewrite Hw.
  destruct (_ <? _); unfold accounting; simpl; congruence.
Qed.

Lemma accounting_fields a b :
  accounting a = accounting b ->
  expiresAt a = expiresAt b /\ lastSentAt a = lastSentAt b /\
  windowStartAt a = windowStartAt b /\ sentCountInWindow a = sentCountInWindow b.
Proof. unfold accounting. intros [= -> -> -> ->]. done. Qed.

Lemma current_entry_count_nonneg now e w :
  store_ok w -> 0 <= sentCountInWindow (current_entry cfg now e w).
Proof.
  intros Hok. unfold current_entry, reset_window.
  destruct (otpStore w !! e) as [entry|] eqn:Hs; simpl.
  - destruct (_ <? _); simpl; [lia|]. by apply (Hok e).
  - destruct (_ <? _); simpl; lia.
Qed.

Lemma handle_store_ok r w : store_ok w -> store_ok (snd (handle cfg r w)).
Proof.
  intros Hok e entry. destruct r as [now rnd ok email|now email otp]; simpl.
  - destruct (issued (fst (otp_send cfg now rnd ok email w))) eqn:Hi.
    + apply otp_send_issued_inv in Hi as (e' & -> & Hv & _ & _ & ->).
      destruct (decide (e = e')) as [->|Hne].
      * rewrite lookup_insert_eq. intros [= <-]. simpl. split; [done|].
        pose proof (current_entry_count_nonneg now e' w Hok). lia.
      * rewrite lookup_insert_ne by done. apply Hok.
    + apply otp_send_refused_inv in Hi as [->|(e' & -> & ->)]; [apply Hok|].
      destruct (decide (e = e')) as [->|Hne].
      * rewrite window_touched_lookup.
        destruct (otpStore w !! e') as [old|] eqn:Hs; simpl; [|done].
        intros [= <-]. split; [by apply (Hok e' old)|].
        pose proof (current_entry_count_nonneg now e' w Hok) as H.
        unfold current_entry in H. by rewrite Hs in H.
      * rewrite window_touched_other by done. apply Hok.
  - intros Hs.
    assert (accounting <$> otpStore (snd (otp_verify now email otp w)) !! e =
            accounting <$> otpStore w !! e) as Ha by apply otp_verify_accounting.
    rewrite Hs in Ha. simpl in Ha.
    destruct (otpStore w !! e) as [old|] eqn:Hold; [|done].
    injection Ha as _ _ _ Hc. rewrite Hc. by apply (Hok e old).
Qed.

Lemma run_store_ok rs w : store_ok w -> store_ok (run cfg rs w).
Proof.
  revert w. induction rs as [|r rs IH]; intros w Hok; simpl; [done|].
  apply IH. by apply handle_store_ok.
Qed.

Lemma reachable_store_ok w : reachable cfg w -> store_ok w.
Proof.
  intros [rs <-]. apply run_store_ok. intros e entry. simpl. by rewrite lookup_empty.
Qed.

End ServerWindow.


(** *** The window cap *)

Section ServerRateLimit.
Import Server.
Variable cfg : Config.

Lemma reset_window_stay now entry :
  now - windowStartAt entry <= rateWindowSeconds cfg * 1000 ->
  reset_window cfg now entry = entry.
Proof.
  intros H. unfold reset_window.
  destruct (Z.ltb_spec (rateWindowSeconds cfg * 1000) (now - windowStartAt entry)); [lia|done].
Qed.

Lemma is_send_for_true e r :
  is_send_for e r = true -> exists now rnd ok, r = OtpSend now rnd ok (Some e).
Proof.
  destruct r as [now rnd ok [e'|]|]; simpl; try done.
  intros H. apply String.eqb_eq in H as ->. by exists now, rnd, ok.
Qed.

Lemma send_times_send e now rnd ok rs :
  send_times e (OtpSend now rnd ok (Some e) :: rs) = now :: send_times e rs.
Proof.
  unfold send_times. rewrite filter_cons_True; [done|].
  simpl. apply String.eqb_refl.
Qed.

Lemma send_times_skip e r rs :
  is_send_for e r = false -> send_times e (r :: rs) = send_times e rs.
Proof.
  intros H. unfold send_times. rewrite filter_cons_False; [done|]. by rewrite H.
Qed.

Lemma otp_send_issued_record now rnd ok e w :
  issued (fst (otp_send cfg now rnd ok (Some e) w)) = true ->
  otpStore (snd (otp_send cfg now rnd ok (Some e) w)) !! e =
    Some (issue_entry cfg now (generateOtp (otpLength cfg) rnd) (current_entry cfg now e w)).
Proof.
  intros Hi. apply otp_send_issued_inv in Hi as (e' & [= <-] & _ & _ & _ & ->).
  by rewrite lookup_insert_eq.
Qed.

(** Inside one window every issuance adds one to the count and keeps the
    window start. *)
Lemma run_counts e rs : forall w entry k,
  otpStore w !! e = Some entry ->
  k <= sentCountInWindow entry ->
  sends_issued cfg e rs w = true ->
  Forall (fun t => t - windowStartAt entry <= rateWindowSeconds cfg * 1000)
         (send_times e rs) ->
  exists entry',
    otpStore (run cfg rs w) !! e = Some entry' /\
    windowStartAt entry' = windowStartAt entry /\
    k + Z.of_nat (length (send_times e rs)) <= sentCountInWindow entry'.
Proof.
  induction rs as [|r rs IH]; intros w entry k Hs Hk Hi Ht.
  - exists entry. simpl. repeat split; [done | lia].
  - simpl in Hi. apply andb_true_iff in Hi as [Hr Hi].
    destruct (is_send_for e r) eqn:Hsend.
    + destruct (is_send_for_true e r Hsend) as (now & rnd & ok & ->).
      simpl in Hr, Hi. simpl.
      rewrite send_times_send in Ht |- *.
      apply Forall_cons_1 in Ht as [Hnow Ht].
      pose proof (otp_send_issued_record now rnd ok e w Hr) as Hrec.
      assert (current_entry cfg now e w = entry) as Hcur.
      { unfold current_entry. rewrite Hs. simpl. by apply reset_window_stay. }
      rewrite Hcur in Hrec.
      destruct (IH _ _ (k + 1) Hrec) as (entry' & Hs' & Hw' & Hc'); simpl; try done; [lia|].
      exists entry'. split; [exact Hs'|]. split; [exact Hw'|].
      simpl. lia.
    + simpl.
      rewrite send_times_skip in Ht |- * by done.
      pose proof (handle_accounting cfg e r w Hsend) as Ha.
      rewrite Hs in Ha. simpl in Ha.
      destruct (otpStore (snd (handle cfg r w)) !! e) as [mid|] eqn:Hmid; [|done].
      simpl in Ha. assert (accounting mid = accounting entry) as Ha' by congruence.
      apply accounting_fields in Ha' as (_ & _ & Hw & Hc).
      destruct (IH _ mid k Hmid) as (entry' & Hs' & Hw' & Hc'); try done.
      * lia.
      * by rewrite Hw.
      * exists entry'. split; [exact Hs'|]. split; [congruence | exact Hc'].
Qed.

Lemma within_window_accounting e w w' times :
  accounting <$> otpStore w' !! e = accounting <$> otpStore w !! e ->
  within_window cfg e w' times <-> within_window cfg e w times.
Proof.
  intros H. destruct times as [|t1 rest]; simpl; [done|].
  pose proof (current_entry_accounting cfg t1 e w w' H) as Ha.
  apply accounting_fields in Ha as (_ & _ & -> & _). done.
Qed.

(** The state-level statement: a record whose count has reached the cap, in
    a window that has not elapsed, makes the request fail with RateLimited. *)
Lemma otp_send_at_cap now rnd ok e w entry :
  test_email e = true ->
  otpStore w !! e = Some entry ->
  now - windowStartAt entry <= rateWindowSeconds cfg * 1000 ->
  rateMaxPerWindow cfg <= sentCountInWindow entry ->
  fst (otp_send cfg now rnd ok (Some e) w) = RateLimited.
Proof.
  intros Hv Hs Hw Hc.
  rewrite otp_send_rate_limited; [done | done |].
  unfold current_entry. rewrite Hs. simpl. by rewrite reset_window_stay.
Qed.

Lemma rate_limited_run e rs : forall w now rnd ok,
  store_ok w ->
  test_email e = true ->
  sends_issued cfg e rs w = true ->
  rateMaxPerWindow cfg <= Z.of_nat (length (send_times e rs)) ->
  within_window cfg e w (send_times e rs ++ [now]) ->
  fst (otp_send cfg now rnd ok (Some e) (run cfg rs w)) = RateLimited.
Proof.
  induction rs as [|r rs IH]; intros w now rnd ok Hok Hv Hi Hmax Hwin.
  - simpl in *. rewrite otp_send_rate_limited; [done | done |].
    pose proof (current_entry_count_nonneg cfg now e w Hok). lia.
  - simpl in Hi. apply andb_true_iff in Hi as [Hr Hi].
    destruct (is_send_for e r) eqn:Hsend.
    + destruct (is_send_for_true e r Hsend) as (t1 & rnd1 & ok1 & ->).
      simpl in Hr, Hi. simpl.
      rewrite send_times_send in Hmax, Hwin. simpl in Hwin, Hmax.
      apply Forall_app in Hwin as [Hrest Hnow].
      apply Forall_cons_1 in Hnow as [Hnow _].
      pose proof (otp_send_issued_record t1 rnd1 ok1 e w Hr) as Hrec.
      destruct (run_counts e rs _ _ 1 Hrec) as (entry' & Hs' & Hw' & Hc'); simpl; try done.
      { pose proof (current_entry_count_nonneg cfg t1 e w Hok). lia. }
      simpl in Hw'.
      apply (otp_send_at_cap now rnd ok e _ entry'); try done; [by rewrite Hw' | lia].
    + simpl. rewrite send_times_skip in Hmax, Hwin by done.
      apply IH; try done.
      * by apply handle_store_ok.
      * apply (within_window_accounting e w); [|done].
        by apply handle_accounting.
Qed.

(** C3. A record whose window count has reached the configured maximum,
    in a window that has not elapsed, makes the next issuance request for
    the identity fail with RateLimited. And the count reaches the maximum by
    issuances: in a state the service can reach, let any requests follow in
    which every issuance request for the identity succeeds (the assignments
    of an issuance are made), all inside one rate window of the identity; if
    these issuances are at least the configured maximum, the next issuance
    request for the identity made before the window elapses fails with
    RateLimited. *)
Theorem rate_limited_after_max :
  (forall e w entry now rnd ok,
     test_email e = true ->
     otpStore w !! e = Some entry ->
     now - windowStartAt entry <= rateWindowSeconds cfg * 1000 ->
     rateMaxPerWindow cfg <= sentCountInWindow entry ->
     fst (otp_send cfg now rnd ok (Some e) w) = RateLimited) /\
  (forall e rs w now rnd ok,
     reachable cfg w ->
     test_email e = true ->
     sends_issued cfg e rs w = true ->
     rateMaxPerWindow cfg <= Z.of_nat (length (send_times e rs)) ->
     within_window cfg e w (send_times e rs ++ [now]) ->
     fst (otp_send cfg now rnd ok (Some e) (run cfg rs w)) = RateLimited).
Proof.
  split.
  - intros e w entry now rnd ok. apply otp_send_at_cap.
  - intros e rs w now rnd ok Hreach. apply rate_limited_run.
    by apply (reachable_store_ok cfg).
Qed.

End ServerRateLimit.

(** The scenario of five issuances 100 seconds apart: all five are answered
    ok, and the sixth, 500 seconds after the first, is rate limited. *)
Lemma rate_limited_after_max_witness :
  Server.sends_issued Server.default_config Sample.alice Sample.five_sends
    Server.empty_world = true /\
  fst (Server.otp_send Server.default_config (Sample.t0 + 500000) Sample.rnd_042913 true
         (Some Sample.alice) Sample.issued_five) = Server.RateLimited.
Proof.
  split; [vm_compute; reflexivity|].
  destruct (rate_limited_after_max Server.default_config) as [_ Hrun].
  apply (Hrun Sample.alice Sample.five_sends Server.empty_world).
  - exists []. reflexivity.
  - vm_compute; reflexivity.
  - vm_compute; reflexivity.
  - vm_compute. discriminate.
  - assert (Server.send_times Sample.alice Sample.five_sends ++ [Sample.t0 + 500000] =
            map (fun k => Sample.t0 + k * 100000) [0; 1; 2; 3; 4; 5]) as ->
      by (vm_compute; reflexivity).
    unfold Server.within_window. cbn [map]. cbv beta iota.
    assert (Server.windowStartAt
              (Server.current_entry Server.default_config (Sample.t0 + 0 * 100000)
                 Sample.alice Server.empty_world) = Sample.t0) as ->
      by (vm_compute; reflexivity).
    repeat (apply List.Forall_cons; [vm_compute; discriminate|]).
    apply List.Forall_nil.
Defined.


(** *** The resend interval *)

Section ServerResend.
Import Server.
Variable cfg : Config.

Lemma current_entry_lastSentAt now e w entry :
  otpStore w !! e = Some entry ->
  lastSentAt (current_entry cfg now e w) = lastSentAt entry.
Proof.
  intros Hs. unfold current_entry. rewrite Hs. simpl. apply reset_window_lastSentAt.
Qed.

(** After an issuance at [t0] and requests that are not issuance requests
    for [e], the record of [e] still carries [t0] as its last-issued time
    and [t0 + TTL] as its expiry. *)
Lemma issued_then_run e w t0 rnd0 ok0 rs :
  issued (fst (otp_send cfg t0 rnd0 ok0 (Some e) w)) = true ->
  forallb (fun r => negb (is_send_for e r)) rs = true ->
  exists entry,
    otpStore (run cfg rs (snd (otp_send cfg t0 rnd0 ok0 (Some e) w))) !! e = Some entry /\
    accounting entry =
      accounting (issue_entry cfg t0 (generateOtp (otpLength cfg) rnd0)
                    (current_entry cfg t0 e w)).
Proof.
  intros Hi Hrs.
  pose proof (otp_send_issued_record cfg t0 rnd0 ok0 e w Hi) as Hrec.
  pose proof (run_accounting cfg e rs (snd (otp_send cfg t0 rnd0 ok0 (Some e) w)) Hrs)
    as Ha.
  rewrite Hrec in Ha. simpl in Ha.
  destruct (otpStore (run cfg rs _) !! e) as [entry|]; [|done].
  exists entry. split; [done|]. simpl in Ha. congruence.
Qed.

(** C4. A record whose last issuance is less than the minimum resend
    interval before [now] makes the issuance request fail with TooSoon when
    the window count (taken after the reset of an elapsed window) is below
    the cap. In terms of requests: after an issuance to the identity at [t0],
    and whatever requests follow that are not issuance requests for it, an
    issuance request made less than the minimum resend interval after [t0]
    fails with TooSoon when the window count is below the cap; when the cap
    is reached the answer is RateLimited instead, the cap being checked
    first. *)
Theorem resend_too_soon :
  (forall e w entry now rnd ok,
     test_email e = true ->
     otpStore w !! e = Some entry ->
     now - lastSentAt entry < minResendIntervalSeconds cfg * 1000 ->
     sentCountInWindow (current_entry cfg now e w) < rateMaxPerWindow cfg ->
     fst (otp_send cfg now rnd ok (Some e) w) = TooSoon) /\
  (forall e w t0 rnd0 ok0 rs now rnd ok,
     issued (fst (otp_send cfg t0 rnd0 ok0 (Some e) w)) = true ->
     forallb (fun r => negb (is_send_for e r)) rs = true ->
     now - t0 < minResendIntervalSeconds cfg * 1000 ->
     (sentCountInWindow
        (current_entry cfg now e (run cfg rs (snd (otp_send cfg t0 rnd0 ok0 (Some e) w))))
        < rateMaxPerWindow cfg ->
      fst (otp_send cfg now rnd ok (Some e)
             (run cfg rs (snd (otp_send cfg t0 rnd0 ok0 (Some e) w)))) = TooSoon) /\
     (rateMaxPerWindow cfg <=
        sentCountInWindow
          (current_entry cfg now e (run cfg rs (snd (otp_send cfg t0 rnd0 ok0 (Some e) w)))) ->
      fst (otp_send cfg now rnd ok (Some e)
             (run cfg rs (snd (otp_send cfg t0 rnd0 ok0 (Some e) w)))) = RateLimited)).
Proof.
  split.
  - intros e w entry now rnd ok Hv Hs Ht Hc.
    rewrite otp_send_too_soon; try done.
    by rewrite (current_entry_lastSentAt now e w entry Hs).
  - intros e w t0 rnd0 ok0 rs now rnd ok Hi Hrs Ht.
    destruct (issued_then_run e w t0 rnd0 ok0 rs Hi Hrs) as (entry & Hs & Ha).
    apply accounting_fields in Ha as (_ & Hl & _ & _). simpl in Hl.
    apply otp_send_issued_inv in Hi as (e' & [= <-] & Hv & _).
    split; intros Hc.
    + rewrite otp_send_too_soon; try done.
      rewrite (current_entry_lastSentAt now e _ entry Hs). lia.
    + by rewrite otp_send_rate_limited.
Qed.

End ServerResend.

(** Re-requesting 30 seconds after the first issuance: TooSoon, with one
    issuance of five in the window. *)
Lemma resend_too_soon_witness :
  fst (Server.otp_send Server.default_config (Sample.t0 + 30000) Sample.rnd_042913 true
         (Some Sample.alice) Sample.issued_once) = Server.TooSoon.
Proof.
  destruct (resend_too_soon Server.default_config) as [_ Hrun].
  apply (Hrun Sample.alice Server.empty_world
           Sample.t0 Sample.rnd_042913 true [] (Sample.t0 + 30000) Sample.rnd_042913 true).
  - vm_compute; reflexivity.
  - reflexivity.
  - vm_compute; reflexivity.
  - vm_compute; reflexivity.
Defined.


(** *** What an issuance writes *)

Section ServerIssue.
Import Server.
Variable cfg : Config.

Lemma sendEmail_resolved ok m log :
  snd (sendEmail cfg ok m log) = true -> fst (sendEmail cfg ok m log) = log ++ [m].
Proof.
  unfold sendEmail. destruct (emailProvider cfg); [done|].
  destruct (transporter cfg); [done | discriminate].
Qed.

(** The transport is called at most once, with the mail of this request. *)
Lemma sendEmail_log ok m log :
  fst (sendEmail cfg ok m log) = log ++ [m] \/ fst (sendEmail cfg ok m log) = log.
Proof.
  unfold sendEmail. destruct (emailProvider cfg); [by left|].
  destruct (transporter cfg); [by left | by right].
Qed.

(** An answer of ok: the mail of this request was passed to the transport. *)
Lemma otp_send_ok_mail now rnd ok e w :
  fst (otp_send cfg now rnd ok (Some e) w) = JsonOk ->
  mailLog (snd (otp_send cfg now rnd ok (Some e) w)) =
    mailLog w ++ [otp_mail cfg e (generateOtp (otpLength cfg) rnd)].
Proof.
  intros Hr.
  assert (issued (fst (otp_send cfg now rnd ok (Some e) w)) = true) as Hi
    by (rewrite Hr; reflexivity).
  apply otp_send_issued_inv in Hi as (e' & [= <-] & Hv & Hc & Ht & _).
  rewrite otp_send_issue in Hr |- * by done. simpl in *.
  apply sendEmail_resolved.
  destruct (snd (sendEmail cfg ok _ (mailLog w))); [done | discriminate].
Qed.

(** After an issuance and requests that leave the identity alone, the code
    verifies until its expiry; once verified it is gone until the next
    issuance request for the identity. *)
Lemma issued_code_single_use e w now rnd ok before t1 between t2 :
  issued (fst (otp_send cfg now rnd ok (Some e) w)) = true ->
  0 < otpLength cfg ->
  forallb (fun r => negb (concerns e r)) before = true ->
  t1 <= now + otpTtlSeconds cfg * 1000 ->
  forallb (fun r => negb (is_send_for e r)) between = true ->
  fst (otp_verify t1 (Some e) (Some (generateOtp (otpLength cfg) rnd))
         (run cfg before (snd (otp_send cfg now rnd ok (Some e) w)))) = JsonOk /\
  fst (otp_verify t2 (Some e) (Some (generateOtp (otpLength cfg) rnd))
         (run cfg between
            (snd (otp_verify t1 (Some e) (Some (generateOtp (otpLength cfg) rnd))
                    (run cfg before (snd (otp_send cfg now rnd ok (Some e) w)))))))
    = NotFound.
Proof.
  intros Hi Hlen Hbefore Ht1 Hbetween.
  pose proof (otp_send_issued_record cfg now rnd ok e w Hi) as Hrec.
  apply otp_send_issued_inv in Hi as (e' & [= <-] & Hv & _).
  pose proof (test_email_nonempty e Hv) as He.
  pose proof (generateOtp_nonempty (otpLength cfg) rnd Hlen) as Hc.
  set (c := generateOtp (otpLength cfg) rnd) in *.
  set (w1 := snd (otp_send cfg now rnd ok (Some e) w)) in *.
  assert (otpStore (run cfg before w1) !! e = Some (issue_entry cfg now c (current_entry cfg now e w)))
    as Hs by (by rewrite run_other).
  rewrite (otp_verify_ok t1 e c _ _ He Hc Hs) by done.
  split; [done|]. simpl.
  rewrite otp_verify_not_found; try done.
  rewrite run_keeps_no_code; try done.
  unfold stored_code. simpl. by rewrite lookup_insert_eq.
Qed.

(** The stored code of an identity is the code of the latest issuance to it. *)
Lemma stored_code_last_issued e rs : forall w acc c,
  (forall c', stored_code w e = Some c' -> acc = Some c') ->
  stored_code (run cfg rs w) e = Some c ->
  last_issued cfg e rs w acc = Some c.
Proof.
  induction rs as [|r rs IH]; intros w acc c Hacc Hc; simpl in *; [by apply Hacc|].
  apply IH; [|done]. clear IH Hc. intros c' Hc'.
  destruct r as [now rnd ok email|now email otp]; simpl in *.
  - destruct (issued (fst (otp_send cfg now rnd ok email w))) eqn:Hi.
    + pose proof Hi as Hi'.
      apply otp_send_issued_inv in Hi' as (e' & -> & _ & _ & _ & Hst).
      destruct (String.eqb_spec e e') as [<-|Hne]; simpl.
      * unfold stored_code in Hc'. rewrite Hst, lookup_insert_eq in Hc'. simpl in Hc'.
        congruence.
      * apply Hacc. unfold stored_code in *.
        by rewrite Hst, lookup_insert_ne in Hc' by done.
    + rewrite otp_send_refused_stored_code in Hc' by done.
      destruct email as [e'|]; [|by apply Hacc].
      rewrite andb_false_r. by apply Hacc.
  - apply Hacc.
    destruct (otp_verify_stored_code now email otp e w) as [H|H]; congruence.
Qed.

Lemma verify_ok_stored_code now e o w :
  fst (otp_verify now (Some e) (Some o) w) = JsonOk -> stored_code w e = Some o.
Proof.
  intros Hr. destruct (otp_verify now (Some e) (Some o) w) as [r w'] eqn:Hv.
  simpl in Hr. subst r.
  apply otp_verify_ok_inv in Hv as (e' & o' & entry & [= <-] & [= <-] & _ & _ & Hs & Hc & _).
  unfold stored_code. by rewrite Hs.
Qed.

End ServerIssue.


(** *** A mail that fails after the store was written *)

Section ServerNotifierFailure.
Import Server.
Variable cfg : Config.

(** C10. When the issuance request fails with NotifierFailure, the record
    of the identity already holds the new code, the expiry [now + TTL],
    [now] as last-issued time and a window count one higher. Hence, for a
    positive code length, verifying with the new code before the expiry
    succeeds; a further request inside the minimum resend interval is
    refused (TooSoon, or RateLimited at the cap); and the failed attempt
    counts towards the cap of its window. *)
Theorem notifier_failure_after_write e w now rnd ok :
  fst (otp_send cfg now rnd ok (Some e) w) = NotifierFailure ->
  let c := generateOtp (otpLength cfg) rnd in
  let cur := current_entry cfg now e w in
  let w' := snd (otp_send cfg now rnd ok (Some e) w) in
  otpStore w' !! e =
    Some {| code := Some c;
            expiresAt := now + otpTtlSeconds cfg * 1000;
            lastSentAt := now;
            windowStartAt := windowStartAt cur;
            sentCountInWindow := sentCountInWindow cur + 1 |} /\
  (0 < otpLength cfg ->
   forall t, t <= now + otpTtlSeconds cfg * 1000 ->
     fst (otp_verify t (Some e) (Some c) w') = JsonOk) /\
  (forall t rnd' ok', t - now < minResendIntervalSeconds cfg * 1000 ->
     fst (otp_send cfg t rnd' ok' (Some e) w') = TooSoon \/
     fst (otp_send cfg t rnd' ok' (Some e) w') = RateLimited) /\
  (forall t rnd' ok',
     t - windowStartAt cur <= rateWindowSeconds cfg * 1000 ->
     rateMaxPerWindow cfg <= sentCountInWindow cur + 1 ->
     fst (otp_send cfg t rnd' ok' (Some e) w') = RateLimited).
Proof.
  intros Hr c cur w'.
  assert (issued (fst (otp_send cfg now rnd ok (Some e) w)) = true) as Hi
    by (rewrite Hr; reflexivity).
  pose proof (otp_send_issued_record cfg now rnd ok e w Hi) as Hrec.
  apply otp_send_issued_inv in Hi as (e' & [= <-] & Hv & _).
  fold c cur w' in Hrec. unfold issue_entry in Hrec.
  split; [exact Hrec|]. split; [|split].
  - intros Hlen t Ht.
    rewrite (otp_verify_ok t e c w' _ (test_email_nonempty e Hv)
               (generateOtp_nonempty _ rnd Hlen) Hrec); done.
  - intros t rnd' ok' Ht.
    destruct (otp_send_split cfg t rnd' ok' e w' Hv)
      as [[_ H]|[(_ & _ & H)|(_ & Hlate & _)]].
    + right. by rewrite H.
    + left. by rewrite H.
    + rewrite (current_entry_lastSentAt cfg t e w' _ Hrec) in Hlate. simpl in Hlate. lia.
  - intros t rnd' ok' Ht Hmax.
    by apply (otp_send_at_cap cfg t rnd' ok' e w' _ Hv Hrec).
Qed.

End ServerNotifierFailure.

(** The first issuance to [alice] with a transport that throws: the code
    "042913" is stored all the same, verifies, and a re-request 30 seconds
    later is refused. *)
Lemma notifier_failure_after_write_witness :
  fst (Server.otp_send Server.default_config Sample.t0 Sample.rnd_042913 false
         (Some Sample.alice) Server.empty_world) = Server.NotifierFailure /\
  Server.stored_code Sample.issued_unsent Sample.alice = Some "042913"%string /\
  fst (Server.otp_verify (Sample.t0 + 500000) (Some Sample.alice) (Some "042913"%string)
         Sample.issued_unsent) = JsonOk /\
  (fst (Server.otp_send Server.default_config (Sample.t0 + 30000) Sample.rnd_042913 true
          (Some Sample.alice) Sample.issued_unsent) = Server.TooSoon \/
   fst (Server.otp_send Server.default_config (Sample.t0 + 30000) Sample.rnd_042913 true
          (Some Sample.alice) Sample.issued_unsent) = Server.RateLimited).
Proof.
  assert (fst (Server.otp_send Server.default_config Sample.t0 Sample.rnd_042913 false
                 (Some Sample.alice) Server.empty_world) = Server.NotifierFailure) as Hfail
    by (vm_compute; reflexivity).
  destruct (notifier_failure_after_write Server.default_config Sample.alice
              Server.empty_world Sample.t0 Sample.rnd_042913 false Hfail)
    as (Hrec & Hverify & Hsoon & _).
  split; [exact Hfail|]. split; [|split].
  - unfold Server.stored_code, Sample.issued_unsent. rewrite Hrec. reflexivity.
  - apply (Hverify ltac:(reflexivity) (Sample.t0 + 500000)). vm_compute. discriminate.
  - apply (Hsoon (Sample.t0 + 30000)). vm_compute. reflexivity.
Defined.



(** ** Properties of the Apps Script web app *)

Section AppsScriptFacts.
Import AppsScript.

Lemma string_of_Z_parse n : NilZero.int_of_string (string_of_Z n) = Some (Z.to_int n).
Proof.
  unfold string_of_Z. apply NilZero.isi.
  - destruct n; simpl; try discriminate.
    intros [= H]. by apply Unsigned.to_uint_nonnil in H.
  - destruct n; simpl; try discriminate.
    intros [= H]. by apply Unsigned.to_uint_nonnil in H.
Qed.

(** Distinct integers have distinct decimal texts. *)
Lemma string_of_Z_inj a b : string_of_Z a = string_of_Z b -> a = b.
Proof.
  intros H. apply (f_equal NilZero.int_of_string) in H.
  rewrite !string_of_Z_parse in H. injection H as H.
  apply (f_equal Z.of_int) in H. by rewrite !DecimalZ.of_to in H.
Qed.

Lemma string_of_Z_nonempty n : string_of_Z n <> EmptyString.
Proof.
  intros H. pose proof (string_of_Z_parse n) as Hp. rewrite H in Hp. discriminate.
Qed.

(** The comparison in minutes is the comparison at 600000 milliseconds. *)
Lemma within_ten_minutes_spec now ts :
  within_ten_minutes now ts = true <-> now - ts <= 600000.
Proof.
  unfold within_ten_minutes. rewrite Qle_bool_iff.
  unfold Qle, Qdiv, Qmult, Qinv, inject_Z. simpl. lia.
Qed.

(** [verifyOTP] returns the spreadsheet it was given. *)
Lemma verifyOTP_reads_only now parameter w : snd (verifyOTP now parameter w) = w.
Proof.
  unfold verifyOTP.
  destruct (negb (truthy (parameter !! "email"%string))
            || negb (truthy (parameter !! "otp"%string))); [done|].
  by destruct (otpSheet w).
Qed.

Lemma verifyOTP_scan now parameter w e o rows :
  parameter !! "email"%string = Some e -> parameter !! "otp"%string = Some o ->
  e <> EmptyString -> o <> EmptyString ->
  otpSheet w = Some rows ->
  fst (verifyOTP now parameter w) = scan now e o (rev rows).
Proof.
  intros He Ho Hne Hno Hs. unfold verifyOTP. rewrite He, Ho, Hs.
  apply truthy_Some in Hne, Hno. by rewrite Hne, Hno.
Qed.

(** The scan answers valid as soon as some row matches and every matching
    row is at most ten minutes old. *)
Lemma scan_valid now e o rows :
  (exists row, In row rows /\ rowEmail row = e /\ string_of_Z (rowOTP row) = o) ->
  (forall row, In row rows -> rowEmail row = e -> string_of_Z (rowOTP row) = o ->
     now - timestamp row <= 600000) ->
  scan now e o rows = "OTP valid"%string.
Proof.
  induction rows as [|row rows IH]; intros (r & Hin & Hre & Hro) Hall; [done|].
  simpl.
  destruct (String.eqb_spec (rowEmail row) e) as [He|He]; simpl.
  - destruct (String.eqb_spec (string_of_Z (rowOTP row)) o) as [Ho|Ho].
    + assert (within_ten_minutes now (timestamp row) = true) as ->; [|done].
      apply within_ten_minutes_spec. apply Hall; [by left | done | done].
    + apply IH.
      * exists r. destruct Hin as [->|Hin]; [congruence | done].
      * intros row' Hin'. apply Hall. by right.
  - apply IH.
    + exists r. destruct Hin as [->|Hin]; [congruence | done].
    + intros row' Hin'. apply Hall. by right.
Qed.

(** What [sendOTP] writes when the sheet exists. *)
Lemma sendOTP_appends k now mail_error parameter w e rows :
  parameter !! "email"%string = Some e -> e <> EmptyString ->
  otpSheet w = Some rows ->
  otpSheet (snd (sendOTP k now mail_error parameter w)) =
    Some (rows ++ [ {| rowEmail := e; rowOTP := draw_otp k; timestamp := now |} ]) /\
  dataSheet (snd (sendOTP k now mail_error parameter w)) = dataSheet w /\
  (mail_error = None ->
     fst (sendOTP k now mail_error parameter w) = "OTP sent"%string /\
     mailLog (snd (sendOTP k now mail_error parameter w)) =
       mailLog w ++ [otp_mail e (draw_otp k)]).
Proof.
  intros He Hne Hs. unfold sendOTP. rewrite He, Hs.
  apply truthy_Some in Hne. rewrite Hne. simpl.
  destruct mail_error; simpl; repeat split; try done.
Qed.

(** A code sent by [sendOTP] verifies for ten minutes, however often it has
    been verified before: verification consumes nothing. *)
Lemma sent_code_stays_valid k t0 mail_error p w e rows t q :
  p !! "email"%string = Some e -> e <> EmptyString ->
  otpSheet w = Some rows ->
  q !! "email"%string = Some e ->
  q !! "otp"%string = Some (string_of_Z (draw_otp k)) ->
  t - t0 <= 600000 ->
  fst (verifyOTP t q (snd (sendOTP k t0 mail_error p w))) = "OTP valid"%string.
Proof.
  intros He Hne Hs Hqe Hqo Ht.
  destruct (sendOTP_appends k t0 mail_error p w e rows He Hne Hs) as (Hs' & _).
  rewrite (verifyOTP_scan t q _ e (string_of_Z (draw_otp k)) _ Hqe Hqo Hne
             (string_of_Z_nonempty _) Hs').
  rewrite rev_app_distr. simpl.
  rewrite !String.eqb_refl. simpl.
  assert (within_ten_minutes t t0 = true) as ->; [|done].
  by apply within_ten_minutes_spec.
Qed.

(** The code is a number of six digits without a leading zero. *)
Lemma draw_otp_range k : 0 <= k < 900000 -> 100000 <= draw_otp k <= 999999.
Proof. unfold draw_otp. lia. Qed.

(** [register] stores every payload, with or without an identity. *)
Lemma register_always_ok now parameter w :
  fst (register now None parameter w) = "OK"%string /\
  dataSheet (snd (register now None parameter w)) =
    Some (default [] (dataSheet w)
          ++ [ {| rowData := map (fun f => or_empty (parameter !! f)) register_fields;
                  rowDate := now |} ]).
Proof. done. Qed.

End AppsScriptFacts.


(** ** The life cycle of a code on both back ends *)

(** The Apps Script accepts a verified code again: after one [sendOTP] of the
    code 123456 to [alice], a first and then a second [verifyOTP] with it
    both answer "OTP valid". *)
Lemma apps_script_code_verifies_twice :
  fst (AppsScript.verifyOTP (Sample.t0 + 1000)
         (Sample.verify_param Sample.alice "123456")
         (snd (AppsScript.sendOTP 23456 Sample.t0 None (Sample.email_param Sample.alice)
                 Sample.sheet_ready))) = "OTP valid"%string /\
  fst (AppsScript.verifyOTP (Sample.t0 + 2000)
         (Sample.verify_param Sample.alice "123456")
         (snd (AppsScript.verifyOTP (Sample.t0 + 1000)
                 (Sample.verify_param Sample.alice "123456")
                 (snd (AppsScript.sendOTP 23456 Sample.t0 None
                         (Sample.email_param Sample.alice) Sample.sheet_ready)))))
    = "OTP valid"%string.
Proof. split; vm_compute; reflexivity. Qed.

(** C1 (as amended). On the Express service, for a positive code length:
    after an issuance request for an identity has stored a code (answered ok,
    or its mail failed), and whatever requests for other identities follow,
    verifying that code no later than the expiry succeeds; after that, and
    whatever requests follow that are not issuance requests for the
    identity, verifying the same code fails with NotFound. On the Apps
    Script web app verification consumes nothing: a code sent by [sendOTP]
    is answered "OTP valid" at every verification made within ten minutes of
    the sending, also after an earlier successful one. *)
Theorem verified_code_reuse :
  (forall cfg e w now rnd ok before t1 between t2,
     Server.issued (fst (Server.otp_send cfg now rnd ok (Some e) w)) = true ->
     0 < Server.otpLength cfg ->
     forallb (fun r => negb (Server.concerns e r)) before = true ->
     t1 <= now + Server.otpTtlSeconds cfg * 1000 ->
     forallb (fun r => negb (Server.is_send_for e r)) between = true ->
     let c := Server.generateOtp (Server.otpLength cfg) rnd in
     let w1 := Server.run cfg before (snd (Server.otp_send cfg now rnd ok (Some e) w)) in
     fst (Server.otp_verify t1 (Some e) (Some c) w1) = JsonOk /\
     fst (Server.otp_verify t2 (Some e) (Some c)
            (Server.run cfg between (snd (Server.otp_verify t1 (Some e) (Some c) w1))))
       = Server.NotFound) /\
  (forall k t0 mail_error p w e rows q t1 t2,
     p !! "email"%string = Some e -> e <> EmptyString ->
     AppsScript.otpSheet w = Some rows ->
     q !! "email"%string = Some e ->
     q !! "otp"%string = Some (string_of_Z (AppsScript.draw_otp k)) ->
     t1 - t0 <= 600000 -> t2 - t0 <= 600000 ->
     let w1 := snd (AppsScript.sendOTP k t0 mail_error p w) in
     fst (AppsScript.verifyOTP t1 q w1) = "OTP valid"%string /\
     fst (AppsScript.verifyOTP t2 q (snd (AppsScript.verifyOTP t1 q w1)))
       = "OTP valid"%string).
Proof.
  split.
  - intros cfg e w now rnd ok before t1 between t2 Hi Hlen Hb Ht1 Hbt c w1.
    by apply issued_code_single_use.
  - intros k t0 mail_error p w e rows q t1 t2 He Hne Hs Hqe Hqo Ht1 Ht2 w1.
    rewrite verifyOTP_reads_only.
    split; by apply (sent_code_stays_valid k t0 mail_error p w e rows).
Qed.

(** The scenario of the specification on the service: "042913" issued at
    [t0] verifies at [t0 + 500 s] and is not found at [t0 + 700 s]. *)
Lemma verified_code_reuse_witness :
  fst (Server.otp_verify (Sample.t0 + 500000) (Some Sample.alice) (Some "042913"%string)
         Sample.issued_once) = JsonOk /\
  fst (Server.otp_verify (Sample.t0 + 700000) (Some Sample.alice) (Some "042913"%string)
         (snd (Server.otp_verify (Sample.t0 + 500000) (Some Sample.alice)
                 (Some "042913"%string) Sample.issued_once))) = Server.NotFound.
Proof.
  destruct verified_code_reuse as [Hserver _].
  apply (Hserver Server.default_config Sample.alice Server.empty_world Sample.t0
           Sample.rnd_042913 true [] (Sample.t0 + 500000) [] (Sample.t0 + 700000)).
  - vm_compute; reflexivity.
  - reflexivity.
  - reflexivity.
  - vm_compute. discriminate.
  - reflexivity.
Defined.


(** The Apps Script accepts two codes of one identity at once: after the
    codes 111111 and 222222 were sent to [alice] one minute apart, both
    verify as valid in the same state of the sheet. *)
Lemma apps_script_accepts_two_codes :
  fst (AppsScript.verifyOTP (Sample.t0 + 120000)
         (Sample.verify_param Sample.alice "111111")
         (snd (AppsScript.sendOTP 122222 (Sample.t0 + 60000) None
                 (Sample.email_param Sample.alice)
                 (snd (AppsScript.sendOTP 11111 Sample.t0 None
                         (Sample.email_param Sample.alice) Sample.sheet_ready)))))
    = "OTP valid"%string /\
  fst (AppsScript.verifyOTP (Sample.t0 + 120000)
         (Sample.verify_param Sample.alice "222222")
         (snd (AppsScript.sendOTP 122222 (Sample.t0 + 60000) None
                 (Sample.email_param Sample.alice)
                 (snd (AppsScript.sendOTP 11111 Sample.t0 None
                         (Sample.email_param Sample.alice) Sample.sheet_ready)))))
    = "OTP valid"%string.
Proof. split; vm_compute; reflexivity. Qed.

(** C6 (as amended). On the Express service at most one code is accepted
    for an identity in any state: two candidates that both verify are the
    same string, and in a state reached by a run of requests from the empty
    store the candidate that verifies is the code of the latest issuance to
    the identity in that run. On the Apps Script web app every code sent to
    the identity is accepted as long as the rows of the identity are at most
    ten minutes old, the older codes as well as the latest. *)
Theorem accepted_codes_per_identity :
  (forall e w t1 o1 t2 o2,
     fst (Server.otp_verify t1 (Some e) (Some o1) w) = JsonOk ->
     fst (Server.otp_verify t2 (Some e) (Some o2) w) = JsonOk ->
     o1 = o2) /\
  (forall cfg e rs t o,
     fst (Server.otp_verify t (Some e) (Some o) (Server.run cfg rs Server.empty_world))
       = JsonOk ->
     Server.last_issued cfg e rs Server.empty_world None = Some o) /\
  (forall w rows e row now q,
     AppsScript.otpSheet w = Some rows ->
     e <> EmptyString ->
     In row rows -> AppsScript.rowEmail row = e ->
     (forall r, In r rows -> AppsScript.rowEmail r = e ->
        now - AppsScript.timestamp r <= 600000) ->
     q !! "email"%string = Some e ->
     q !! "otp"%string = Some (string_of_Z (AppsScript.rowOTP row)) ->
     fst (AppsScript.verifyOTP now q w) = "OTP valid"%string).
Proof.
  split; [|split].
  - intros e w t1 o1 t2 o2 H1 H2.
    apply verify_ok_stored_code in H1, H2. congruence.
  - intros cfg e rs t o Hv. apply verify_ok_stored_code in Hv.
    apply (stored_code_last_issued cfg e rs Server.empty_world None o); [|done].
    intros c'. unfold Server.stored_code. simpl. by rewrite lookup_empty.
  - intros w rows e row now q Hs Hne Hin Hre Hall Hqe Hqo.
    rewrite (verifyOTP_scan now q w e _ rows Hqe Hqo Hne (string_of_Z_nonempty _) Hs).
    apply scan_valid.
    + exists row. split; [by apply in_rev in Hin | done].
    + intros r Hr Hre' _. apply Hall; [by apply in_rev | done].
Qed.

(** After two issuances to [alice] on the service, 100 seconds apart with
    the draws of "042913" and then all zeros, the candidate "000000"
    verifies and is the code of the latest issuance. *)
Lemma accepted_codes_per_identity_witness :
  fst (Server.otp_verify (Sample.t0 + 200000) (Some Sample.alice) (Some "000000"%string)
         (Server.run Server.default_config
            [ Server.OtpSend Sample.t0 Sample.rnd_042913 true (Some Sample.alice);
              Server.OtpSend (Sample.t0 + 100000) (fun _ => 0%nat) true
                (Some Sample.alice) ]
            Server.empty_world)) = JsonOk /\
  Server.last_issued Server.default_config Sample.alice
    [ Server.OtpSend Sample.t0 Sample.rnd_042913 true (Some Sample.alice);
      Server.OtpSend (Sample.t0 + 100000) (fun _ => 0%nat) true (Some Sample.alice) ]
    Server.empty_world None = Some "000000"%string.
Proof.
  split; [vm_compute; reflexivity|].
  destruct accepted_codes_per_identity as (_ & Hlast & _).
  apply (Hlast Server.default_config Sample.alice _ (Sample.t0 + 200000)).
  vm_compute; reflexivity.
Defined.


(** The Apps Script never issues a code with a leading zero: with the
    smallest draw the row holds the number 100000 (and the time of sending,
    not an expiry), and no draw gives the code "042913". *)
Lemma apps_script_no_leading_zero :
  AppsScript.otpSheet
    (snd (AppsScript.sendOTP 0 Sample.t0 None (Sample.email_param Sample.alice)
            Sample.sheet_ready))
    = Some [ {| AppsScript.rowEmail := Sample.alice;
                AppsScript.rowOTP := 100000;
                AppsScript.timestamp := Sample.t0 |} ] /\
  ~ (exists k, 0 <= k < 900000 /\
               string_of_Z (AppsScript.draw_otp k) = "042913"%string).
Proof.
  split; [vm_compute; reflexivity|].
  intros (k & Hk & Hs).
  pose proof (string_of_Z_parse (AppsScript.draw_otp k)) as Hp.
  rewrite Hs in Hp.
  assert (exists d, NilZero.int_of_string "042913" = Some d /\ Z.of_int d = 42913)
    as (d & Hd & Hval) by (eexists; split; reflexivity).
  rewrite Hd in Hp. injection Hp as ->.
  rewrite DecimalZ.of_to in Hval. unfold AppsScript.draw_otp in Hval. lia.
Qed.

(** C5 (as amended). On the Express service an issuance request answered
    ok, with draws below ten and a non-negative configured length, has
    generated a code of exactly that many decimal digits, stored it with
    expiry [now + TTL] and last-issued time [now], added one to the count of
    the identity's window (the count after the reset of an elapsed window),
    and passed the mail with the code to the transport; every digit string of
    the configured length is the code of exactly one sequence of draws, so
    uniform draws give uniform codes, leading zeros included. On the Apps
    Script web app [sendOTP] draws a number from 100000 to 999999 (six
    digits, no leading zero), appends the row of identity, number and time
    of sending (no expiry is stored and no window is counted) and, when the
    mail goes out, passes the number to the mail service. *)
Theorem issuance_effects :
  (forall cfg e w now rnd ok,
     fst (Server.otp_send cfg now rnd ok (Some e) w) = JsonOk ->
     0 <= Server.otpLength cfg ->
     (forall j, (rnd j < 10)%nat) ->
     let c := Server.generateOtp (Server.otpLength cfg) rnd in
     let cur := Server.current_entry cfg now e w in
     let w' := snd (Server.otp_send cfg now rnd ok (Some e) w) in
     Z.of_nat (String.length c) = Server.otpLength cfg /\
     Server.all_decimal c = true /\
     Server.otpStore w' !! e =
       Some {| Server.code := Some c;
               Server.expiresAt := now + Server.otpTtlSeconds cfg * 1000;
               Server.lastSentAt := now;
               Server.windowStartAt := Server.windowStartAt cur;
               Server.sentCountInWindow := Server.sentCountInWindow cur + 1 |} /\
     Server.mailLog w' = Server.mailLog w ++ [Server.otp_mail cfg e c] /\
     Server.to (Server.otp_mail cfg e c) = e /\
     Server.text (Server.otp_mail cfg e c) =
       "Your verification code is " +:+ c +:+ ". It expires in "
         +:+ string_of_Z (Server.otpTtlSeconds cfg / 60) +:+ " minutes.") /\
  (forall len s,
     String.length s = Z.to_nat len -> Server.all_decimal s = true ->
     exists rnd, (forall j, (rnd j < 10)%nat) /\ Server.generateOtp len rnd = s) /\
  (forall len rnd1 rnd2,
     (forall j, (rnd1 j < 10)%nat) -> (forall j, (rnd2 j < 10)%nat) ->
     Server.generateOtp len rnd1 = Server.generateOtp len rnd2 ->
     forall j, (j < Z.to_nat len)%nat -> rnd1 j = rnd2 j) /\
  (forall k now p w e rows,
     p !! "email"%string = Some e -> e <> EmptyString ->
     AppsScript.otpSheet w = Some rows ->
     0 <= k < 900000 ->
     let w' := snd (AppsScript.sendOTP k now None p w) in
     100000 <= AppsScript.draw_otp k <= 999999 /\
     fst (AppsScript.sendOTP k now None p w) = "OTP sent"%string /\
     AppsScript.otpSheet w' =
       Some (rows ++ [ {| AppsScript.rowEmail := e;
                          AppsScript.rowOTP := AppsScript.draw_otp k;
                          AppsScript.timestamp := now |} ]) /\
     AppsScript.mailLog w' =
       AppsScript.mailLog w ++ [AppsScript.otp_mail e (AppsScript.draw_otp k)]).
Proof.
  split; [|split; [|split]].
  - intros cfg e w now rnd ok Hr Hlen Hrnd c cur w'.
    destruct (generateOtp_shape (Server.otpLength cfg) rnd Hrnd) as [Hl Hd].
    assert (Server.issued (fst (Server.otp_send cfg now rnd ok (Some e) w)) = true) as Hi
      by (rewrite Hr; reflexivity).
    split; [fold c in Hl; lia|]. split; [exact Hd|].
    split; [exact (otp_send_issued_record cfg now rnd ok e w Hi)|].
    split; [by apply otp_send_ok_mail|]. done.
  - apply generateOtp_surj.
  - apply generateOtp_inj.
  - intros k now p w e rows He Hne Hs Hk w'.
    destruct (sendOTP_appends k now None p w e rows He Hne Hs) as (Hs' & _ & Hm).
    destruct (Hm eq_refl) as [Hr Hlog].
    split; [by apply draw_otp_range|]. done.
Qed.

(** The first issuance to [alice] on the service with the draws
    0, 4, 2, 9, 1, 3: six digits, a leading zero, one issuance counted. *)
Lemma issuance_effects_witness :
  Server.otpStore Sample.issued_once !! Sample.alice =
    Some {| Server.code := Some "042913"%string;
            Server.expiresAt := Sample.t0 + 600000;
            Server.lastSentAt := Sample.t0;
            Server.windowStartAt := Sample.t0;
            Server.sentCountInWindow := 1 |} /\
  map Server.to (Server.mailLog Sample.issued_once) = [Sample.alice].
Proof.
  destruct issuance_effects as (Hserver & _).
  destruct (Hserver Server.default_config Sample.alice Server.empty_world Sample.t0
              Sample.rnd_042913 true)
    as (_ & _ & Hrec & Hlog & _).
  - vm_compute; reflexivity.
  - vm_compute; discriminate.
  - intros j. unfold Sample.rnd_042913.
    do 6 (destruct j as [|j]; [simpl; lia|]). destruct j; simpl; lia.
  - split.
    + unfold Sample.issued_once. rewrite Hrec. reflexivity.
    + unfold Sample.issued_once. rewrite Hlog. reflexivity.
Defined.



(** ** Registration *)

Section Registration.
Import Server.

Lemma truthy_false (v : option string) :
  truthy v = false <-> v = None \/ v = Some EmptyString.
Proof.
  destruct v as [s|]; simpl.
  - destruct (String.eqb_spec s EmptyString) as [->|Hne]; simpl.
    + split; auto.
    + split; [discriminate|]. intros [H|[= H]]; [discriminate | done].
  - split; auto.
Qed.

Lemma api_register_unconfigured cfg stringify ts client_ok append_ok body sheet :
  truthy (spreadsheetId cfg) = false ->
  api_register cfg stringify ts client_ok append_ok body sheet = (NotConfigured, sheet).
Proof. intros H. unfold api_register. by rewrite H. Qed.

Lemma api_register_missing cfg stringify ts client_ok append_ok body sheet :
  truthy (spreadsheetId cfg) = true ->
  truthy (body !! "email"%string) = false ->
  api_register cfg stringify ts client_ok append_ok body sheet = (MissingIdentity, sheet).
Proof. intros H1 H2. unfold api_register. by rewrite H1, H2. Qed.

Lemma api_register_present cfg stringify ts client_ok append_ok body sheet :
  truthy (spreadsheetId cfg) = true ->
  truthy (body !! "email"%string) = true ->
  api_register cfg stringify ts client_ok append_ok body sheet =
    if client_ok && append_ok then
      (JsonOk,
       sheet ++ [ {| append_spreadsheet := default EmptyString (spreadsheetId cfg);
                     append_range :=
                       (if truthy (sheetName cfg) then default EmptyString (sheetName cfg)
                        else "Submissions"%string) +:+ "!A:Z";
                     append_row := register_row stringify ts body |} ])
    else (StoreFailure, sheet).
Proof.
  intros H1 H2. unfold api_register. rewrite H1, H2. simpl.
  by destruct client_ok, append_ok.
Qed.

End Registration.

(** A payload without an identity is not refused with MissingIdentity by
    either back end in these cases: the Apps Script [register] stores the row
    and answers "OK"; the service without SPREADSHEET_ID answers with its
    configuration error. *)
Lemma registration_without_identity :
  fst (AppsScript.register Sample.t0 None ∅ Sample.sheet_ready) = "OK"%string /\
  (exists row,
     AppsScript.dataSheet (snd (AppsScript.register Sample.t0 None ∅ Sample.sheet_ready))
       = Some [row] /\
     nth 0 (AppsScript.rowData row) "?"%string = EmptyString) /\
  fst (Server.api_register Sample.no_sheet_config Sample.json_stub "2025-01-01T00:00:00.000Z"
         true true ∅ []) = Server.NotConfigured /\
  Server.NotConfigured <> Server.MissingIdentity.
Proof.
  split; [reflexivity|]. split; [eexists; split; reflexivity|].
  split; [reflexivity | discriminate].
Qed.

(** C9 (as amended). On the Express service with SPREADSHEET_ID configured,
    registration fails with MissingIdentity exactly when the email field of
    the payload is absent or empty, and then appends nothing; otherwise,
    when the spreadsheet client and the append call succeed, it answers ok
    and appends one row: the timestamp, the 19 named fields (absent or empty
    ones as the empty string) and the JSON text of the payload as received,
    and when one of them fails it answers StoreFailure. Without
    SPREADSHEET_ID it answers with the configuration error whatever the
    payload. The Apps Script [register] has no identity check: when the
    spreadsheet service does not throw, every payload is answered "OK" and
    its 21 named fields are appended with the date. *)
Theorem registration_identity_check :
  (forall cfg stringify ts client_ok append_ok body sheet,
     truthy (Server.spreadsheetId cfg) = true ->
     let r := Server.api_register cfg stringify ts client_ok append_ok body sheet in
     (fst r = Server.MissingIdentity <->
        body !! "email"%string = None \/ body !! "email"%string = Some EmptyString) /\
     (fst r = Server.MissingIdentity -> snd r = sheet) /\
     (fst r <> Server.MissingIdentity -> client_ok = true -> append_ok = true ->
        fst r = JsonOk /\
        exists a, snd r = sheet ++ [a] /\
          Server.append_row a =
            ts :: map (fun f => or_empty (body !! f)) Server.register_fields
               ++ [stringify body]) /\
     (fst r <> Server.MissingIdentity -> client_ok && append_ok = false ->
        r = (Server.StoreFailure, sheet))) /\
  (forall cfg stringify ts client_ok append_ok body sheet,
     truthy (Server.spreadsheetId cfg) = false ->
     Server.api_register cfg stringify ts client_ok append_ok body sheet
       = (Server.NotConfigured, sheet)) /\
  (forall now parameter w,
     fst (AppsScript.register now None parameter w) = "OK"%string /\
     AppsScript.dataSheet (snd (AppsScript.register now None parameter w)) =
       Some (default [] (AppsScript.dataSheet w)
             ++ [ {| AppsScript.rowData :=
                       map (fun f => or_empty (parameter !! f)) AppsScript.register_fields;
                     AppsScript.rowDate := now |} ])).
Proof.
  split; [|split].
  - intros cfg stringify ts client_ok append_ok body sheet Hcfg r. subst r.
    destruct (truthy (body !! "email"%string)) eqn:He.
    + rewrite api_register_present by done.
      assert (~ (body !! "email"%string = None \/ body !! "email"%string = Some EmptyString))
        as Hno by (rewrite <- truthy_false; congruence).
      destruct (client_ok && append_ok) eqn:Hok; simpl.
      * apply andb_true_iff in Hok as [-> ->].
        split; [split; [discriminate | done]|].
        split; [discriminate|]. split; [|discriminate].
        intros _ _ _. split; [done|]. eexists. split; reflexivity.
      * split; [split; [discriminate | done]|].
        split; [discriminate|]. split; [|done].
        intros _ -> ->. discriminate.
    + rewrite api_register_missing by done. simpl.
      apply truthy_false in He.
      split; [done|]. split; [done|]. split; intros H; by destruct H.
  - intros. by apply api_register_unconfigured.
  - intros now parameter w. apply register_always_ok.
Qed.

Lemma registration_identity_check_witness :
  fst (Server.api_register Server.default_config Sample.json_stub
         "2025-01-01T00:00:00.000Z" true true Sample.payload []) = JsonOk /\
  fst (Server.api_register Server.default_config Sample.json_stub
         "2025-01-01T00:00:00.000Z" true true ∅ []) = Server.MissingIdentity.
Proof.
  destruct registration_identity_check as (Hserver & _).
  split.
  - destruct (Hserver Server.default_config Sample.json_stub "2025-01-01T00:00:00.000Z"%string
                true true Sample.payload []) as (_ & _ & Hok & _); [reflexivity|].
    apply Hok; [vm_compute; discriminate | reflexivity | reflexivity].
  - destruct (Hserver Server.default_config Sample.json_stub "2025-01-01T00:00:00.000Z"%string
                true true ∅ []) as (Hmiss & _); [reflexivity|].
    apply Hmiss. left. reflexivity.
Defined.


(** ** Further properties of the Express service *)

(** *** Identities the service accepts *)

Section AcceptedIdentities.
Import Server.

(** X1. The e-mail test of the issuance handler accepts exactly the strings
    made of a non-empty run of characters other than "@" and white space, an
    "@", a second such run, a dot and a third such run: the strings the
    regular expression matches from start to end. *)
Theorem email_test_is_the_expression s : test_email s = true <-> email_shape s.
Proof. apply test_email_shape. Qed.

Lemma occurrences_app c a b :
  occurrences c (a +:+ b) = (occurrences c a + occurrences c b)%nat.
Proof.
  induction a as [|x a IH]; [done|].
  rewrite string_app_cons. simpl. rewrite IH. lia.
Qed.

Lemma no_space_app a b : no_space (a +:+ b) = no_space a && no_space b.
Proof.
  induction a as [|x a IH]; [done|].
  rewrite string_app_cons. simpl. rewrite IH. by rewrite andb_assoc.
Qed.

Lemma all_plain_no_at_no_space a :
  all_plain a = true -> occurrences "@" a = 0%nat /\ no_space a = true.
Proof.
  induction a as [|x a IH]; [done|]. simpl.
  rewrite andb_true_iff. unfold plain at 1.
  rewrite negb_true_iff, orb_false_iff. intros [[Hat Hsp] Ha].
  destruct (IH Ha) as [-> ->]. by rewrite Hat, Hsp.
Qed.

(** X2. An identity the issuance handler accepts contains exactly one "@",
    no white space and at least one dot. *)
Theorem accepted_email_form s :
  test_email s = true ->
  occurrences "@" s = 1%nat /\ no_space s = true /\ (1 <= occurrences "." s)%nat.
Proof.
  intros H. apply test_email_shape in H
    as (a & b & c & -> & _ & _ & _ & Ha & Hb & Hc).
  apply all_plain_no_at_no_space in Ha as [Ha1 Ha2].
  apply all_plain_no_at_no_space in Hb as [Hb1 Hb2].
  apply all_plain_no_at_no_space in Hc as [Hc1 Hc2].
  change ("@" +:+ b +:+ "." +:+ c) with (String "@"%char (b +:+ String "."%char c)).
  rewrite !occurrences_app, !no_space_app. simpl.
  rewrite !occurrences_app, !no_space_app. simpl.
  rewrite Ha1, Ha2, Hb1, Hb2, Hc1, Hc2. simpl. repeat split; lia.
Qed.

Lemma accepted_email_form_witness :
  occurrences "@" Sample.alice = 1%nat /\ no_space Sample.alice = true /\
  (1 <= occurrences "." Sample.alice)%nat.
Proof. apply (accepted_email_form Sample.alice). reflexivity. Defined.

End AcceptedIdentities.


(** *** The issuance handler at its edges *)

Section IssuanceEdges.
Import Server.
Variable cfg : Config.

Lemma world_eta (w : World) : {| otpStore := otpStore w; mailLog := mailLog w |} = w.
Proof. by destruct w. Qed.

Lemma current_entry_unknown now e w :
  otpStore w !! e = None -> current_entry cfg now e w = fresh_entry now.
Proof.
  intros Hs. unfold current_entry, reset_window. rewrite Hs. simpl.
  by destruct (_ <? _).
Qed.

Lemma current_entry_elapsed now e w entry :
  otpStore w !! e = Some entry ->
  rateWindowSeconds cfg * 1000 < now - windowStartAt entry ->
  current_entry cfg now e w =
    {| code := code entry; expiresAt := expiresAt entry; lastSentAt := lastSentAt entry;
       windowStartAt := now; sentCountInWindow := 0 |}.
Proof.
  intros Hs Hw. unfold current_entry, reset_window. rewrite Hs. simpl.
  apply Z.ltb_lt in Hw. by rewrite Hw.
Qed.

(** X3. The issuance handler answers InvalidIdentity exactly when the email
    field is absent or fails the e-mail test (the empty string included),
    and then the process state is unchanged. *)
Theorem invalid_identity_exactly now rnd ok email w :
  (fst (otp_send cfg now rnd ok email w) = InvalidIdentity <->
     email = None \/ exists e, email = Some e /\ test_email e = false) /\
  (fst (otp_send cfg now rnd ok email w) = InvalidIdentity ->
     snd (otp_send cfg now rnd ok email w) = w).
Proof.
  destruct email as [e|].
  2:{ split; [split; [by left | done] | done]. }
  destruct (test_email e) eqn:Hv.
  - assert (fst (otp_send cfg now rnd ok (Some e) w) <> InvalidIdentity) as Hne.
    { destruct (otp_send_split cfg now rnd ok e w Hv)
        as [[_ H]|[(_ & _ & H)|(_ & _ & H & _)]].
      - rewrite H. discriminate.
      - rewrite H. discriminate.
      - apply issued_true in H as [-> | ->]; discriminate. }
    split; [split|]; try done.
    intros [H|(e' & [= <-] & H)]; congruence.
  - rewrite otp_send_invalid by done. simpl.
    split; [split; [|done] | done]. intros _. right. by exists e.
Qed.

(** X4. The first request of a well-shaped identity the map does not know:
    with a positive cap and [now] at least the minimum resend interval (the
    made-up entry has last-issued time 0) the code is issued and the new
    record starts its window at [now] with count 1; and when the request is
    refused, no record is created. *)
Theorem first_request_of_identity now rnd ok e w :
  test_email e = true ->
  otpStore w !! e = None ->
  (0 < rateMaxPerWindow cfg -> minResendIntervalSeconds cfg * 1000 <= now ->
     issued (fst (otp_send cfg now rnd ok (Some e) w)) = true /\
     otpStore (snd (otp_send cfg now rnd ok (Some e) w)) !! e =
       Some {| code := Some (generateOtp (otpLength cfg) rnd);
               expiresAt := now + otpTtlSeconds cfg * 1000;
               lastSentAt := now;
               windowStartAt := now;
               sentCountInWindow := 1 |}) /\
  (issued (fst (otp_send cfg now rnd ok (Some e) w)) = false ->
     snd (otp_send cfg now rnd ok (Some e) w) = w).
Proof.
  intros Hv Hs. pose proof (current_entry_unknown now e w Hs) as Hcur.
  split.
  - intros Hmax Hnow.
    rewrite otp_send_issue by (rewrite ?Hcur; simpl; done || lia).
    simpl. rewrite Hcur. split.
    + apply issued_true. destruct (snd _); auto.
    + by rewrite lookup_insert_eq.
  - intros Hi. apply otp_send_refused_inv in Hi as [->|(e' & [= <-] & ->)]; [done|].
    unfold window_touched. by rewrite Hs.
Qed.

(** X5. Once the rate window of a record has elapsed, the cap no longer
    holds the identity back: with a positive cap and the resend interval
    respected, the request is issued whatever the old count was, and the
    record starts a new window at [now] with count 1. *)
Theorem elapsed_window_releases now rnd ok e w entry :
  test_email e = true ->
  otpStore w !! e = Some entry ->
  rateWindowSeconds cfg * 1000 < now - windowStartAt entry ->
  0 < rateMaxPerWindow cfg ->
  minResendIntervalSeconds cfg * 1000 <= now - lastSentAt entry ->
  issued (fst (otp_send cfg now rnd ok (Some e) w)) = true /\
  otpStore (snd (otp_send cfg now rnd ok (Some e) w)) !! e =
    Some {| code := Some (generateOtp (otpLength cfg) rnd);
            expiresAt := now + otpTtlSeconds cfg * 1000;
            lastSentAt := now;
            windowStartAt := now;
            sentCountInWindow := 1 |}.
Proof.
  intros Hv Hs Hw Hmax Hlate.
  pose proof (current_entry_elapsed now e w entry Hs Hw) as Hcur.
  rewrite otp_send_issue by (rewrite ?Hcur; simpl; done || lia).
  simpl. rewrite Hcur. split.
  - apply issued_true. destruct (snd _); auto.
  - by rewrite lookup_insert_eq.
Qed.

(** X6. A request that is refused as too soon still restarts an elapsed
    window: when the window of the record has elapsed but the last issuance
    is less than the minimum resend interval ago, the answer is TooSoon and
    the stored record now has its window start at [now] and count 0, with
    code, expiry and last-issued time as before. *)
Theorem refused_request_restarts_window now rnd ok e w entry :
  test_email e = true ->
  otpStore w !! e = Some entry ->
  rateWindowSeconds cfg * 1000 < now - windowStartAt entry ->
  0 < rateMaxPerWindow cfg ->
  now - lastSentAt entry < minResendIntervalSeconds cfg * 1000 ->
  fst (otp_send cfg now rnd ok (Some e) w) = TooSoon /\
  otpStore (snd (otp_send cfg now rnd ok (Some e) w)) !! e =
    Some {| code := code entry;
            expiresAt := expiresAt entry;
            lastSentAt := lastSentAt entry;
            windowStartAt := now;
            sentCountInWindow := 0 |}.
Proof.
  intros Hv Hs Hw Hmax Hsoon.
  pose proof (current_entry_elapsed now e w entry Hs Hw) as Hcur.
  rewrite otp_send_too_soon by (rewrite ?Hcur; simpl; done || lia).
  simpl. split; [done|].
  rewrite window_touched_lookup, Hs. simpl.
  unfold current_entry in Hcur. rewrite Hs in Hcur. simpl in Hcur. by rewrite Hcur.
Qed.

(** X7. A refused issuance request made while the window of the identity's
    record has not elapsed (or without a record) leaves the whole process
    state exactly as it was. *)
Theorem refused_request_inside_window now rnd ok e w :
  issued (fst (otp_send cfg now rnd ok (Some e) w)) = false ->
  (forall entry, otpStore w !! e = Some entry ->
     now - windowStartAt entry <= rateWindowSeconds cfg * 1000) ->
  snd (otp_send cfg now rnd ok (Some e) w) = w.
Proof.
  intros Hi Hw. apply otp_send_refused_inv in Hi as [->|(e' & [= <-] & ->)]; [done|].
  unfold window_touched, current_entry.
  destruct (otpStore w !! e) as [entry|] eqn:Hs; [|done]. simpl.
  rewrite reset_window_stay by (by apply Hw).
  unfold set_store. rewrite insert_id by done. apply world_eta.
Qed.

(** X11. With SMTP selected and no transporter created at start-up, the
    issuance handler never answers ok and passes nothing to a transport;
    a request that passes the cap and the resend interval is answered
    NotifierFailure, and its code is stored all the same. *)
Theorem smtp_without_transporter now rnd ok email w :
  emailProvider cfg = Smtp -> transporter cfg = false ->
  fst (otp_send cfg now rnd ok email w) <> JsonOk /\
  mailLog (snd (otp_send cfg now rnd ok email w)) = mailLog w /\
  (forall e, email = Some e -> test_email e = true ->
     sentCountInWindow (current_entry cfg now e w) < rateMaxPerWindow cfg ->
     minResendIntervalSeconds cfg * 1000 <= now - lastSentAt (current_entry cfg now e w) ->
     fst (otp_send cfg now rnd ok email w) = NotifierFailure /\
     stored_code (snd (otp_send cfg now rnd ok email w)) e =
       Some (generateOtp (otpLength cfg) rnd)).
Proof.
  intros Hp Ht.
  assert (forall m log, sendEmail cfg ok m log = (log, false)) as Hsend.
  { intros m log. unfold sendEmail. by rewrite Hp, Ht. }
  destruct (issued (fst (otp_send cfg now rnd ok email w))) eqn:Hi.
  - apply otp_send_issued_inv in Hi as (e & -> & Hv & Hc & Hl & _).
    rewrite otp_send_issue by done. rewrite Hsend. simpl.
    split; [discriminate|]. split; [done|].
    intros e' [= <-] _ _ _. split; [done|].
    unfold stored_code. simpl. by rewrite lookup_insert_eq.
  - split; [intros H; rewrite H in Hi; discriminate|].
    split.
    + apply otp_send_refused_inv in Hi as [->|(e' & -> & ->)]; [done|].
      apply window_touched_mailLog.
    + intros e -> Hv Hc Hl. rewrite otp_send_issue in Hi by done.
      rewrite Hsend in Hi. discriminate.
Qed.

End IssuanceEdges.

(** The first request of [bob] on a service that only knows [alice]. *)
Lemma first_request_of_identity_witness :
  Server.issued (fst (Server.otp_send Server.default_config Sample.t0 Sample.rnd_042913
                        true (Some Sample.bob) Sample.issued_once)) = true /\
  Server.otpStore (snd (Server.otp_send Server.default_config Sample.t0 Sample.rnd_042913
                          true (Some Sample.bob) Sample.issued_once)) !! Sample.bob =
    Some {| Server.code := Some "042913"%string;
            Server.expiresAt := Sample.t0 + 600000;
            Server.lastSentAt := Sample.t0;
            Server.windowStartAt := Sample.t0;
            Server.sentCountInWindow := 1 |}.
Proof.
  destruct (first_request_of_identity Server.default_config Sample.t0 Sample.rnd_042913
              true Sample.bob Sample.issued_once) as [H _].
  - reflexivity.
  - vm_compute; reflexivity.
  - apply H; [reflexivity | vm_compute; discriminate].
Defined.

(** Two issuances to [alice] 880 seconds apart, then a request 21 seconds
    later: refused as too soon, and the count of the record is back at 0. *)
Lemma refused_request_restarts_window_witness :
  fst (Server.otp_send Server.default_config (Sample.t0 + 901000) Sample.rnd_042913 true
         (Some Sample.alice) Sample.issued_late) = Server.TooSoon /\
  Server.sentCountInWindow <$>
    Server.otpStore (snd (Server.otp_send Server.default_config (Sample.t0 + 901000)
                            Sample.rnd_042913 true (Some Sample.alice) Sample.issued_late))
      !! Sample.alice = Some 0 /\
  Server.sentCountInWindow <$> Server.otpStore Sample.issued_late !! Sample.alice = Some 2.
Proof.
  assert (Server.otpStore Sample.issued_late !! Sample.alice =
            Some {| Server.code := Some "042913"%string;
                    Server.expiresAt := Sample.t0 + 880000 + 600000;
                    Server.lastSentAt := Sample.t0 + 880000;
                    Server.windowStartAt := Sample.t0;
                    Server.sentCountInWindow := 2 |}) as Hs
    by (vm_compute; reflexivity).
  destruct (refused_request_restarts_window Server.default_config (Sample.t0 + 901000)
              Sample.rnd_042913 true Sample.alice Sample.issued_late _ eq_refl Hs)
    as [Hr Hs']; [vm_compute; reflexivity | reflexivity | vm_compute; reflexivity |].
  split; [exact Hr|]. split; [by rewrite Hs' | by rewrite Hs].
Defined.

(** Six hundred seconds after the five issuances of the rate-limit scenario
    the window has elapsed and a sixth code is issued. *)
Lemma elapsed_window_releases_witness :
  Server.issued (fst (Server.otp_send Server.default_config (Sample.t0 + 1000000)
                        Sample.rnd_042913 true (Some Sample.alice) Sample.issued_five))
    = true.
Proof.
  assert (Server.otpStore Sample.issued_five !! Sample.alice =
            Some {| Server.code := Some "042913"%string;
                    Server.expiresAt := Sample.t0 + 400000 + 600000;
                    Server.lastSentAt := Sample.t0 + 400000;
                    Server.windowStartAt := Sample.t0;
                    Server.sentCountInWindow := 5 |}) as Hs
    by (vm_compute; reflexivity).
  apply (elapsed_window_releases Server.default_config (Sample.t0 + 1000000)
           Sample.rnd_042913 true Sample.alice Sample.issued_five _ eq_refl Hs);
    [vm_compute; reflexivity | reflexivity | vm_compute; discriminate].
Defined.

(** The sixth request of the rate-limit scenario is refused inside the
    window and changes nothing. *)
Lemma refused_request_inside_window_witness :
  snd (Server.otp_send Server.default_config (Sample.t0 + 500000) Sample.rnd_042913 true
         (Some Sample.alice) Sample.issued_five) = Sample.issued_five.
Proof.
  apply (refused_request_inside_window Server.default_config).
  - vm_compute; reflexivity.
  - intros entry Hs.
    assert (Server.otpStore Sample.issued_five !! Sample.alice =
              Some {| Server.code := Some "042913"%string;
                      Server.expiresAt := Sample.t0 + 400000 + 600000;
                      Server.lastSentAt := Sample.t0 + 400000;
                      Server.windowStartAt := Sample.t0;
                      Server.sentCountInWindow := 5 |}) as Hs'
      by (vm_compute; reflexivity).
    rewrite Hs' in Hs. injection Hs as <-. vm_compute. discriminate.
Defined.

(** Without a transporter the first request of [alice] fails with
    NotifierFailure and the mail log stays empty. *)
Lemma smtp_without_transporter_witness :
  fst (Server.otp_send Sample.no_transport_config Sample.t0 Sample.rnd_042913 true
         (Some Sample.alice) Server.empty_world) = Server.NotifierFailure /\
  Server.mailLog (snd (Server.otp_send Sample.no_transport_config Sample.t0
                         Sample.rnd_042913 true (Some Sample.alice) Server.empty_world))
    = [].
Proof.
  destruct (smtp_without_transporter Sample.no_transport_config Sample.t0
              Sample.rnd_042913 true (Some Sample.alice) Server.empty_world
              eq_refl eq_refl) as (_ & Hlog & Hfail).
  split; [|exact Hlog].
  apply (Hfail Sample.alice eq_refl); [reflexivity | vm_compute; reflexivity
                                      | vm_compute; discriminate].
Defined.


(** *** Invariants of the reachable states *)

Section ServerInvariants.
Import Server.
Variable cfg : Config.

Lemma handle_records_ok r w :
  (forall e entry, otpStore w !! e = Some entry -> record_ok cfg e entry) ->
  forall e entry, otpStore (snd (handle cfg r w)) !! e = Some entry -> record_ok cfg e entry.
Proof.
  intros Hok.
  assert (store_ok w) as Hsok.
  { intros e entry Hs. destruct (Hok e entry Hs) as (Hv & Hc & _). split; [done | lia]. }
  intros e entry. destruct r as [now rnd ok email|now email otp]; simpl.
  - destruct (issued (fst (otp_send cfg now rnd ok email w))) eqn:Hi.
    + apply otp_send_issued_inv in Hi as (e' & -> & Hv & Hc & _ & ->).
      destruct (decide (e = e')) as [->|Hne].
      * rewrite lookup_insert_eq. intros [= <-].
        pose proof (current_entry_count_nonneg cfg now e' w Hsok).
        split; [done|]. split; [simpl; lia|]. split; [done|].
        simpl. intros c [= <-]. by exists rnd.
      * rewrite lookup_insert_ne by done. apply Hok.
    + apply otp_send_refused_inv in Hi as [->|(e' & -> & ->)]; [apply Hok|].
      destruct (decide (e = e')) as [->|Hne].
      * rewrite window_touched_lookup.
        destruct (otpStore w !! e') as [old|] eqn:Hs; simpl; [|done].
        intros [= <-]. destruct (Hok e' old Hs) as (Hv & Hc & Hx & Hcode).
        split; [done|].
        rewrite reset_window_expiresAt, reset_window_lastSentAt, reset_window_code.
        split; [|done]. unfold reset_window. destruct (_ <? _); simpl; lia.
      * rewrite window_touched_other by done. apply Hok.
  - destruct (otp_verify now email otp w) as [resp w'] eqn:Hv.
    destruct (decide (resp = JsonOk)) as [->|Hr].
    + apply otp_verify_ok_inv in Hv as (e' & o & old & -> & _ & _ & _ & Hs & _ & _ & ->).
      simpl. destruct (decide (e = e')) as [->|Hne].
      * rewrite lookup_insert_eq. intros [= <-].
        destruct (Hok e' old Hs) as (Hv & Hc & Hx & _).
        split; [done|]. split; [done|]. split; [done|]. discriminate.
      * rewrite lookup_insert_ne by done. apply Hok.
    + pose proof (otp_verify_error_same now email otp w) as H.
      rewrite Hv in H. simpl in *. rewrite H by done. apply Hok.
Qed.

Lemma reachable_records_ok w :
  reachable cfg w ->
  forall e entry, otpStore w !! e = Some entry -> record_ok cfg e entry.
Proof.
  intros [rs <-].
  assert (forall w0,
            (forall e entry, otpStore w0 !! e = Some entry -> record_ok cfg e entry) ->
            forall e entry, otpStore (run cfg rs w0) !! e = Some entry ->
                            record_ok cfg e entry) as Hrun.
  { induction rs as [|r rs IH]; intros w0 H0; simpl; [done|].
    apply IH. by apply handle_records_ok. }
  apply Hrun. intros e entry. simpl. by rewrite lookup_empty.
Qed.

(** X8. In every state the service can reach, each record belongs to an
    identity that passes the e-mail test, its window count lies between 0
    and the configured cap, its expiry is its last-issued time plus the TTL,
    and its code, if any, is an output of [generateOtp] at the configured
    length. *)
Theorem reachable_records w e entry :
  reachable cfg w ->
  otpStore w !! e = Some entry ->
  test_email e = true /\
  0 <= sentCountInWindow entry <= rateMaxPerWindow cfg /\
  expiresAt entry = lastSentAt entry + otpTtlSeconds cfg * 1000 /\
  (forall c, code entry = Some c -> exists rnd, c = generateOtp (otpLength cfg) rnd).
Proof. intros Hr Hs. by apply (reachable_records_ok w Hr e entry). Qed.

Lemma handle_keeps_record e r w :
  is_Some (otpStore w !! e) -> is_Some (otpStore (snd (handle cfg r w)) !! e).
Proof.
  intros Hs. destruct (is_send_for e r) eqn:Hsend.
  - destruct (is_send_for_true e r Hsend) as (now & rnd & ok & ->). simpl.
    destruct (issued (fst (otp_send cfg now rnd ok (Some e) w))) eqn:Hi.
    + rewrite (otp_send_issued_record cfg now rnd ok e w Hi). eauto.
    + apply otp_send_refused_inv in Hi as [->|(e' & [= <-] & ->)]; [done|].
      rewrite window_touched_lookup. destruct Hs as [old ->]. simpl. eauto.
  - pose proof (handle_accounting cfg e r w Hsend) as Ha.
    destruct Hs as [old Hs]. rewrite Hs in Ha.
    destruct (otpStore (snd (handle cfg r w)) !! e); [eauto | done].
Qed.

(** X9. No request destroys a record: along every run of requests the
    identities that have a record keep one. *)
Theorem records_never_destroyed rs w :
  dom (otpStore w) ⊆ dom (otpStore (run cfg rs w)).
Proof.
  revert w. induction rs as [|r rs IH]; intros w; simpl; [done|].
  etrans; [|apply IH].
  intros e. rewrite !elem_of_dom. apply handle_keeps_record.
Qed.

(** X10. A request passes at most one mail to the transport, and only an
    issuance request does: the mail is addressed to the identity of the
    request and carries the code that the map holds for it afterwards. *)
Theorem mail_carries_stored_code r w :
  mailLog (snd (handle cfg r w)) = mailLog w \/
  exists e c,
    is_send_for e r = true /\
    stored_code (snd (handle cfg r w)) e = Some c /\
    mailLog (snd (handle cfg r w)) = mailLog w ++ [otp_mail cfg e c] /\
    to (otp_mail cfg e c) = e.
Proof.
  destruct r as [now rnd ok email|now email otp]; simpl.
  - destruct (issued (fst (otp_send cfg now rnd ok email w))) eqn:Hi.
    + apply otp_send_issued_inv in Hi as (e & -> & Hv & Hc & Hl & _).
      rewrite otp_send_issue by done. simpl.
      destruct (sendEmail_log cfg ok (otp_mail cfg e (generateOtp (otpLength cfg) rnd))
                  (mailLog w)) as [H|H]; [|by left].
      right. exists e, (generateOtp (otpLength cfg) rnd).
      split; [apply String.eqb_refl|]. split; [|done].
      unfold stored_code. simpl. by rewrite lookup_insert_eq.
    + left. apply otp_send_refused_inv in Hi as [->|(e' & -> & ->)]; [done|].
      apply window_touched_mailLog.
  - left. destruct (otp_verify now email otp w) as [resp w'] eqn:Hv.
    destruct (decide (resp = JsonOk)) as [->|Hr].
    + by apply otp_verify_ok_inv in Hv as (e' & o & old & _ & _ & _ & _ & _ & _ & _ & ->).
    + pose proof (otp_verify_error_same now email otp w) as H.
      rewrite Hv in H. simpl in *. by rewrite H.
Qed.

(** X12. With a configured code length of zero or less the generated code
    is the empty string, so no verification ever succeeds in a reachable
    state, whatever the candidate. *)
Theorem empty_code_never_verifies w now email otp :
  otpLength cfg <= 0 ->
  reachable cfg w ->
  fst (otp_verify now email otp w) <> JsonOk.
Proof.
  intros Hlen Hreach Hok.
  destruct (otp_verify now email otp w) as [resp w'] eqn:Hv. simpl in Hok. subst resp.
  apply otp_verify_ok_inv in Hv as (e & o & entry & _ & _ & _ & Ho & Hs & Hc & _).
  destruct (reachable_records_ok w Hreach e entry Hs) as (_ & _ & _ & Hcode).
  destruct (Hcode o Hc) as [rnd ->].
  apply Ho. unfold generateOtp. by replace (Z.to_nat (otpLength cfg)) with 0%nat by lia.
Qed.

End ServerInvariants.

(** After the five issuances of the rate-limit scenario the record of
    [alice] has count 5, the cap, and expiry 600 seconds after the last
    issuance. *)
Lemma reachable_records_witness :
  exists entry,
    Server.otpStore Sample.issued_five !! Sample.alice = Some entry /\
    0 <= Server.sentCountInWindow entry <= 5 /\
    Server.expiresAt entry = Server.lastSentAt entry + 600 * 1000.
Proof.
  assert (exists entry, Server.otpStore Sample.issued_five !! Sample.alice = Some entry)
    as [entry Hs] by (eexists; vm_compute; reflexivity).
  exists entry. split; [exact Hs|].
  destruct (reachable_records Server.default_config Sample.issued_five Sample.alice entry)
    as (_ & Hc & Hx & _);
    [exists Sample.five_sends; unfold Sample.issued_five; reflexivity | exact Hs |].
  split; [exact Hc | exact Hx].
Defined.

(** With OTP_LENGTH set to 0 an issuance is answered ok, and verifying with
    the (empty) code it stored does not succeed. *)
Lemma empty_code_never_verifies_witness :
  fst (Server.otp_send Sample.zero_length_config Sample.t0 Sample.rnd_042913 true
         (Some Sample.alice) Server.empty_world) = JsonOk /\
  fst (Server.otp_verify (Sample.t0 + 1000) (Some Sample.alice) (Some EmptyString)
         (snd (Server.otp_send Sample.zero_length_config Sample.t0 Sample.rnd_042913 true
                 (Some Sample.alice) Server.empty_world))) <> JsonOk.
Proof.
  split; [vm_compute; reflexivity|].
  apply (empty_code_never_verifies Sample.zero_length_config).
  - vm_compute. discriminate.
  - exists [Server.OtpSend Sample.t0 Sample.rnd_042913 true (Some Sample.alice)].
    reflexivity.
Defined.



(** *** The expiry instant, and what registration appends *)

Section ServerBoundaries.
Import Server.

(** X13. The expiry is inclusive: an active code verifies at the very
    millisecond of its expiry and is answered Expired one millisecond
    later. *)
Theorem code_verifies_through_expiry e c w entry :
  e <> EmptyString -> c <> EmptyString ->
  otpStore w !! e = Some entry ->
  code entry = Some c ->
  fst (otp_verify (expiresAt entry) (Some e) (Some c) w) = JsonOk /\
  fst (otp_verify (expiresAt entry + 1) (Some e) (Some c) w) = Expired.
Proof.
  intros He Hc Hs Hcode. split.
  - by rewrite (otp_verify_ok (expiresAt entry) e c w entry) by (done || lia).
  - assert (truthy (code entry) = true) as Ht by (rewrite Hcode; by apply truthy_Some).
    by rewrite (otp_verify_expired (expiresAt entry + 1) e c w entry) by (done || lia).
Qed.

Lemma code_verifies_through_expiry_witness :
  fst (otp_verify (Sample.t0 + 600000) (Some Sample.alice) (Some "042913"%string)
         Sample.issued_once) = JsonOk /\
  fst (otp_verify (Sample.t0 + 600000 + 1) (Some Sample.alice) (Some "042913"%string)
         Sample.issued_once) = Expired.
Proof.
  apply (code_verifies_through_expiry Sample.alice "042913" Sample.issued_once
           {| code := Some "042913"%string; expiresAt := Sample.t0 + 600000;
              lastSentAt := Sample.t0; windowStartAt := Sample.t0;
              sentCountInWindow := 1 |});
    [discriminate | discriminate | vm_compute; reflexivity | reflexivity].
Defined.

(** X14. Registration is append-only: either it answers ok and the sheet is
    the old one followed by one row of exactly 21 cells, sent to the range
    "<SHEET_NAME or Submissions>!A:Z" of the configured spreadsheet, with the
    timestamp first and the JSON text of the payload last; or it answers an
    error and the sheet is the old one. *)
Theorem registration_appends_only cfg stringify ts client_ok append_ok body sheet :
  (fst (api_register cfg stringify ts client_ok append_ok body sheet) = JsonOk /\
   exists a,
     snd (api_register cfg stringify ts client_ok append_ok body sheet) = sheet ++ [a] /\
     length (append_row a) = 21%nat /\
     nth 0 (append_row a) EmptyString = ts /\
     nth 20 (append_row a) EmptyString = stringify body /\
     Some (append_spreadsheet a) = spreadsheetId cfg /\
     append_range a =
       (if truthy (sheetName cfg) then default EmptyString (sheetName cfg)
        else "Submissions"%string) +:+ "!A:Z") \/
  (fst (api_register cfg stringify ts client_ok append_ok body sheet) <> JsonOk /\
   snd (api_register cfg stringify ts client_ok append_ok body sheet) = sheet).
Proof.
  unfold api_register.
  destruct (truthy (spreadsheetId cfg)) eqn:Hid; simpl; [|by right].
  destruct (truthy (body !! "email"%string)); simpl; [|by right].
  destruct client_ok; simpl; [|by right].
  destruct append_ok; simpl; [|by right].
  left. split; [done|]. eexists. split; [reflexivity|]. simpl.
  repeat split; try done. symmetry. by apply truthy_default.
Qed.

End ServerBoundaries.


(** *** CORS *)

Section Cors.
Import Server.

Lemma split_comma_nonempty s : split_comma s <> [].
Proof.
  destruct s as [|c s]; simpl; [done|].
  destruct (Ascii.eqb c ","); [done|]. by destruct (split_comma s).
Qed.

Lemma join_comma_cons_char c p ps :
  join_comma (String c p :: ps) = String c (join_comma (p :: ps)).
Proof. by destruct ps. Qed.

Lemma join_comma_cons_empty ps :
  ps <> [] -> join_comma (EmptyString :: ps) = String "," (join_comma ps).
Proof. by destruct ps. Qed.

(** X15. Splitting at the commas loses nothing: joining the parts with
    commas gives the string back, no part contains a comma, and there is one
    part more than there are commas (one empty part for the empty string). *)
Theorem split_comma_round_trip s :
  join_comma (split_comma s) = s /\
  Forall (fun p => occurrences "," p = 0%nat) (split_comma s) /\
  length (split_comma s) = S (occurrences "," s).
Proof.
  induction s as [|c s (IHj & IHf & IHl)]; [by repeat constructor|].
  pose proof (split_comma_nonempty s) as Hne. simpl.
  destruct (Ascii.eqb c ",") eqn:Hc.
  - rewrite join_comma_cons_empty, IHj by done.
    apply Ascii.eqb_eq in Hc as ->.
    split; [done|]. split; [by constructor|]. simpl. by rewrite IHl.
  - destruct (split_comma s) as [|p ps]; [done|].
    rewrite join_comma_cons_char, IHj.
    apply Forall_cons_1 in IHf as [Hp Hps].
    split; [done|]. split; [|simpl in *; lia].
    constructor; [|done]. simpl. by rewrite Hc, Hp.
Qed.

Lemma trim_start_spec s :
  exists a, s = a +:+ trim_start s /\ all_space a = true /\
            forall c, first_char (trim_start s) = Some c -> is_space c = false.
Proof.
  induction s as [|x s (a & Hs & Ha & Hc)]; simpl.
  - by exists EmptyString.
  - destruct (is_space x) eqn:Hx.
    + exists (String x a). rewrite string_app_cons, <- Hs. simpl. by rewrite Hx.
    + exists EmptyString. repeat split. simpl. by intros c [= <-].
Qed.

Lemma trim_end_spec s :
  exists b, s = trim_end s +:+ b /\ all_space b = true /\
            (forall c, last_char (trim_end s) = Some c -> is_space c = false) /\
            (trim_end s <> EmptyString -> first_char (trim_end s) = first_char s).
Proof.
  induction s as [|x s (b & Hs & Hb & Hl & _)]; simpl.
  - by exists EmptyString.
  - destruct (trim_end s) as [|y t] eqn:Ht.
    + change (EmptyString +:+ b) with b in Hs. subst s.
      destruct (is_space x) eqn:Hx.
      * exists (String x b). split; [reflexivity|]. simpl. rewrite Hx, Hb.
        repeat split; done.
      * exists b. split; [reflexivity|]. split; [done|]. split; [|done].
        simpl. by intros c [= <-].
    + exists b. rewrite string_app_cons, <- Hs. repeat split; try done.
Qed.

(** X16. [trim] cuts a run of white space at each end and nothing else: the
    string is white space, then its trimmed form, then white space, and the
    trimmed form neither starts nor ends with white space. *)
Theorem trim_cuts_white_space s :
  exists a b,
    s = a +:+ trim s +:+ b /\ all_space a = true /\ all_space b = true /\
    (forall c, first_char (trim s) = Some c -> is_space c = false) /\
    (forall c, last_char (trim s) = Some c -> is_space c = false).
Proof.
  unfold trim.
  destruct (trim_start_spec s) as (a & Hs & Ha & Hfirst).
  destruct (trim_end_spec (trim_start s)) as (b & Ht & Hb & Hlast & Hkeep).
  exists a, b. split; [by rewrite <- Ht|]. repeat split; try done.
  intros c Hc. apply Hfirst. rewrite <- Hkeep; [done|].
  intros Hempty. by rewrite Hempty in Hc.
Qed.

Lemma trim_clean s :
  (forall c, first_char (trim s) = Some c -> is_space c = false) /\
  (forall c, last_char (trim s) = Some c -> is_space c = false).
Proof.
  unfold trim.
  destruct (trim_start_spec s) as (a & Hs & Ha & Hfirst).
  destruct (trim_end_spec (trim_start s)) as (b & Ht & Hb & Hlast & Hkeep).
  split; [|done].
  intros c Hc. apply Hfirst. rewrite <- Hkeep; [done|].
  intros Hempty. by rewrite Hempty in Hc.
Qed.

Lemma allowed_origins_clean cors_origins o :
  In o (allowedOrigins cors_origins) ->
  (forall c, first_char o = Some c -> is_space c = false) /\
  (forall c, last_char o = Some c -> is_space c = false).
Proof.
  unfold allowedOrigins. intros Hin.
  apply filter_In in Hin as [Hin _].
  apply in_map_iff in Hin as (p & <- & _). apply trim_clean.
Qed.

(** X17. Every entry of [allowedOrigins] is a comma-separated part of
    CORS_ORIGINS with the white space at its ends removed; it is not empty
    and neither starts nor ends with white space. *)
Theorem allowed_origins_are_trimmed cors_origins o :
  In o (allowedOrigins cors_origins) ->
  o <> EmptyString /\
  (exists p, In p (split_comma (or_empty cors_origins)) /\ o = trim p) /\
  (forall c, first_char o = Some c -> is_space c = false) /\
  (forall c, last_char o = Some c -> is_space c = false).
Proof.
  unfold allowedOrigins. intros Hin.
  apply filter_In in Hin as [Hin Hne].
  apply in_map_iff in Hin as (p & <- & Hp).
  apply negb_true_iff, String.eqb_neq in Hne.
  split; [done|]. split; [by exists p|]. apply trim_clean.
Qed.

Lemma allowed_origins_are_trimmed_witness :
  allowedOrigins Sample.cors_env = ["https://a.example"; "https://b.example"]%string /\
  (forall c, first_char "https://a.example" = Some c -> is_space c = false).
Proof.
  split; [vm_compute; reflexivity|].
  apply (allowed_origins_are_trimmed Sample.cors_env "https://a.example").
  vm_compute. by left.
Defined.

Lemma existsb_eqb_In o allowed :
  existsb (String.eqb o) allowed = true <-> In o allowed.
Proof.
  rewrite existsb_exists. split.
  - intros (x & Hx & Heq). by apply String.eqb_eq in Heq as ->.
  - intros Hin. exists o. split; [done | apply String.eqb_refl].
Qed.

(** X18. The CORS decision. A request without an Origin header is always
    let through; without CORS_ORIGINS every origin is let through; otherwise,
    when some origin is configured, an origin is let through exactly when it
    equals one of the entries, so an origin that starts with white space is
    refused. *)
Theorem cors_decision :
  (forall cors_origins, cors_origin (allowedOrigins cors_origins) None = true) /\
  (forall origin, cors_origin (allowedOrigins None) origin = true) /\
  (forall cors_origins o,
     o <> EmptyString -> allowedOrigins cors_origins <> [] ->
     (cors_origin (allowedOrigins cors_origins) (Some o) = true <->
      In o (allowedOrigins cors_origins))) /\
  (forall cors_origins o c,
     allowedOrigins cors_origins <> [] ->
     first_char o = Some c -> is_space c = true ->
     cors_origin (allowedOrigins cors_origins) (Some o) = false).
Proof.
  assert (forall cors_origins o,
            o <> EmptyString -> allowedOrigins cors_origins <> [] ->
            cors_origin (allowedOrigins cors_origins) (Some o) =
              existsb (String.eqb o) (allowedOrigins cors_origins)) as Hcore.
  { intros env o Ho Hne. unfold cors_origin.
    apply truthy_Some in Ho. rewrite Ho. simpl.
    by destruct (allowedOrigins env). }
  split; [done|]. split.
  { intros origin. unfold cors_origin.
    change (allowedOrigins None) with (@nil string). simpl. by rewrite orb_true_r. }
  split.
  - intros env o Ho Hne. rewrite Hcore by done. apply existsb_eqb_In.
  - intros env o c Hne Hc Hsp.
    assert (o <> EmptyString) as Ho by (intros ->; discriminate).
    rewrite Hcore by done.
    destruct (existsb (String.eqb o) (allowedOrigins env)) eqn:Hex; [|done].
    apply existsb_eqb_In, allowed_origins_clean in Hex as [Hfirst _].
    rewrite (Hfirst c Hc) in Hsp. discriminate.
Qed.

End Cors.


(** ** Further properties of the Apps Script web app *)

Section AppsScriptEdges.
Import AppsScript.

(** X19. The first [sendOTP] on a spreadsheet without the "OTPs" sheet
    fails: it answers with the error of calling [appendRow] on [null],
    stores no code and sends no mail, but leaves the sheet inserted; the
    next [sendOTP] then finds the sheet, stores its row and answers
    "OTP sent". *)
Theorem first_send_without_sheet k now mail_error p w e k' now' :
  p !! "email"%string = Some e -> e <> EmptyString ->
  otpSheet w = None ->
  fst (sendOTP k now mail_error p w) = "Error sending OTP: " +:+ null_sheet_error /\
  otpSheet (snd (sendOTP k now mail_error p w)) = Some [] /\
  mailLog (snd (sendOTP k now mail_error p w)) = mailLog w /\
  fst (sendOTP k' now' None p (snd (sendOTP k now mail_error p w))) = "OTP sent"%string /\
  otpSheet (snd (sendOTP k' now' None p (snd (sendOTP k now mail_error p w)))) =
    Some [ {| rowEmail := e; rowOTP := draw_otp k'; timestamp := now' |} ].
Proof.
  intros He Hne Hs.
  assert (sendOTP k now mail_error p w =
            ("Error sending OTP: " +:+ null_sheet_error,
             {| otpSheet := Some []; dataSheet := dataSheet w; mailLog := mailLog w |}))
    as Hfirst.
  { unfold sendOTP. rewrite He, Hs. apply truthy_Some in Hne. by rewrite Hne. }
  rewrite Hfirst. simpl.
  destruct (sendOTP_appends k' now' None p
              {| otpSheet := Some []; dataSheet := dataSheet w; mailLog := mailLog w |}
              e [] He Hne eq_refl) as (Hs' & _ & Hm).
  destruct (Hm eq_refl) as [Hsent _].
  by rewrite Hs', Hsent.
Qed.

Lemma first_send_without_sheet_witness :
  fst (sendOTP 23456 Sample.t0 None (Sample.email_param Sample.alice) empty_world)
    = "Error sending OTP: " +:+ null_sheet_error /\
  fst (sendOTP 23456 (Sample.t0 + 1000) None (Sample.email_param Sample.alice)
         (snd (sendOTP 23456 Sample.t0 None (Sample.email_param Sample.alice) empty_world)))
    = "OTP sent"%string.
Proof.
  destruct (first_send_without_sheet 23456 Sample.t0 None
              (Sample.email_param Sample.alice) empty_world Sample.alice
              23456 (Sample.t0 + 1000)) as (H1 & _ & _ & H2 & _);
    [vm_compute; reflexivity | discriminate | reflexivity |].
  by split.
Defined.

(** X20. When the mail service throws, [sendOTP] answers with the error and
    sends nothing, but the row is already in the sheet: the code that was
    never delivered verifies as valid for ten minutes. *)
Theorem failed_mail_leaves_code k t0 err p w e rows q t :
  p !! "email"%string = Some e -> e <> EmptyString ->
  otpSheet w = Some rows ->
  q !! "email"%string = Some e ->
  q !! "otp"%string = Some (string_of_Z (draw_otp k)) ->
  t - t0 <= 600000 ->
  fst (sendOTP k t0 (Some err) p w) = "Error sending OTP: " +:+ err /\
  mailLog (snd (sendOTP k t0 (Some err) p w)) = mailLog w /\
  fst (verifyOTP t q (snd (sendOTP k t0 (Some err) p w))) = "OTP valid"%string.
Proof.
  intros He Hne Hs Hqe Hqo Ht.
  split; [|split].
  - unfold sendOTP. rewrite He, Hs. apply truthy_Some in Hne. by rewrite Hne.
  - unfold sendOTP. rewrite He, Hs. apply truthy_Some in Hne. by rewrite Hne.
  - by apply (sent_code_stays_valid k t0 (Some err) p w e rows).
Qed.

Lemma failed_mail_leaves_code_witness :
  fst (sendOTP 23456 Sample.t0 (Some "quota"%string) (Sample.email_param Sample.alice)
         Sample.sheet_ready) = "Error sending OTP: quota"%string /\
  fst (verifyOTP (Sample.t0 + 1000) (Sample.verify_param Sample.alice "123456")
         (snd (sendOTP 23456 Sample.t0 (Some "quota"%string)
                 (Sample.email_param Sample.alice) Sample.sheet_ready)))
    = "OTP valid"%string.
Proof.
  destruct (failed_mail_leaves_code 23456 Sample.t0 "quota"
              (Sample.email_param Sample.alice) Sample.sheet_ready Sample.alice []
              (Sample.verify_param Sample.alice "123456") (Sample.t0 + 1000))
    as (H1 & _ & H2);
    [vm_compute; reflexivity | discriminate | reflexivity | vm_compute; reflexivity
    | vm_compute; reflexivity | vm_compute; discriminate |].
  by split.
Defined.

Lemma within_ten_minutes_leb now ts :
  within_ten_minutes now ts = (now - ts <=? 600000).
Proof.
  destruct (Z.leb_spec (now - ts) 600000) as [H|H].
  - by apply within_ten_minutes_spec.
  - destruct (within_ten_minutes now ts) eqn:Hw; [|done].
    apply within_ten_minutes_spec in Hw. lia.
Qed.

Lemma scan_first_match now e o rows :
  scan now e o rows =
    match hd_error (List.filter (matches e o) rows) with
    | None => "Invalid OTP"%string
    | Some row =>
        if now - timestamp row <=? 600000 then "OTP valid"%string
        else "OTP expired"%string
    end.
Proof.
  induction rows as [|row rows IH]; [done|]. simpl.
  unfold matches at 1.
  destruct (String.eqb (rowEmail row) e && String.eqb (string_of_Z (rowOTP row)) o);
    simpl; [|done].
  by rewrite within_ten_minutes_leb.
Qed.

(** X21. For an identity and a candidate that are both present,
    [verifyOTP] is decided by the row appended last among those that match
    both: without such a row the answer is "Invalid OTP"; otherwise it is
    "OTP valid" when that row is at most 600000 milliseconds old and
    "OTP expired" when it is older, whatever the other rows are. *)
Theorem verify_by_latest_match now q w e o rows :
  q !! "email"%string = Some e -> q !! "otp"%string = Some o ->
  e <> EmptyString -> o <> EmptyString ->
  otpSheet w = Some rows ->
  fst (verifyOTP now q w) =
    match latest_match e o rows with
    | None => "Invalid OTP"%string
    | Some row =>
        if now - timestamp row <=? 600000 then "OTP valid"%string
        else "OTP expired"%string
    end.
Proof.
  intros He Ho Hne Hno Hs.
  rewrite (verifyOTP_scan now q w e o rows He Ho Hne Hno Hs).
  rewrite scan_first_match. unfold latest_match. by rewrite filter_rev.
Qed.

Lemma verify_by_latest_match_witness :
  fst (verifyOTP (Sample.t0 + 700000) (Sample.verify_param Sample.alice "123456")
         (snd (sendOTP 23456 Sample.t0 None (Sample.email_param Sample.alice)
                 Sample.sheet_ready))) = "OTP expired"%string.
Proof.
  rewrite (verify_by_latest_match (Sample.t0 + 700000)
             (Sample.verify_param Sample.alice "123456") _ Sample.alice "123456"
             [ {| rowEmail := Sample.alice; rowOTP := 123456; timestamp := Sample.t0 |} ]);
    [vm_compute; reflexivity | vm_compute; reflexivity | vm_compute; reflexivity
    | discriminate | discriminate | vm_compute; reflexivity].
Defined.

Lemma scan_valid_row now e o rows :
  scan now e o rows = "OTP valid"%string ->
  exists row, In row rows /\ rowEmail row = e /\ string_of_Z (rowOTP row) = o /\
              now - timestamp row <= 600000.
Proof.
  induction rows as [|row rows IH]; [discriminate|]. simpl.
  destruct (String.eqb_spec (rowEmail row) e) as [He|He]; simpl.
  - destruct (String.eqb_spec (string_of_Z (rowOTP row)) o) as [Ho|Ho].
    + destruct (within_ten_minutes now (timestamp row)) eqn:Hw; [|discriminate].
      intros _. exists row. apply within_ten_minutes_spec in Hw. by repeat split; [left|..].
    + intros H. destruct (IH H) as (r & Hin & Hr). exists r. split; [by right | done].
  - intros H. destruct (IH H) as (r & Hin & Hr). exists r. split; [by right | done].
Qed.

(** X22. [verifyOTP] answers "OTP valid" only for a code that is in the
    sheet for that very identity in a row at most ten minutes old: a code
    sent to another identity, or sent longer ago, is never accepted. *)
Theorem valid_answer_has_row now q w :
  fst (verifyOTP now q w) = "OTP valid"%string ->
  exists e o rows row,
    q !! "email"%string = Some e /\ q !! "otp"%string = Some o /\
    otpSheet w = Some rows /\ In row rows /\
    rowEmail row = e /\ string_of_Z (rowOTP row) = o /\
    now - timestamp row <= 600000.
Proof.
  unfold verifyOTP.
  destruct (truthy (q !! "email"%string)) eqn:He; [|discriminate].
  destruct (truthy (q !! "otp"%string)) eqn:Ho; [|discriminate].
  simpl. destruct (otpSheet w) as [rows|]; [|discriminate]. simpl.
  intros H. apply scan_valid_row in H as (row & Hin & Hre & Hro & Ht).
  exists (default EmptyString (q !! "email"%string)),
         (default EmptyString (q !! "otp"%string)), rows, row.
  split; [by apply truthy_default|]. split; [by apply truthy_default|].
  split; [done|]. split; [by apply in_rev|]. done.
Qed.

Lemma valid_answer_has_row_witness :
  exists e o rows row,
    Sample.verify_param Sample.alice "123456" !! "email"%string = Some e /\
    Sample.verify_param Sample.alice "123456" !! "otp"%string = Some o /\
    otpSheet (snd (sendOTP 23456 Sample.t0 None (Sample.email_param Sample.alice)
                     Sample.sheet_ready)) = Some rows /\
    In row rows /\
    rowEmail row = e /\ string_of_Z (rowOTP row) = o /\
    (Sample.t0 + 1000) - timestamp row <= 600000.
Proof.
  apply (valid_answer_has_row (Sample.t0 + 1000)
           (Sample.verify_param Sample.alice "123456")
           (snd (sendOTP 23456 Sample.t0 None (Sample.email_param Sample.alice)
                   Sample.sheet_ready))).
  vm_compute; reflexivity.
Defined.

End AppsScriptEdges.


(** *** The spreadsheet along runs of the web app *)

Section AppsScriptRuns.
Import AppsScript.









Lemma sendOTP_backed k now mail_error p w :
  mails_backed w -> mails_backed (snd (sendOTP k now mail_error p w)).
Proof.
  intros Hb. unfold sendOTP.
  destruct (negb (truthy (p !! "email"%string))); [done|].
  destruct (otpSheet w) as [rows|] eqn:Hs.
  - assert (forall m, In m (mailLog w) ->
              exists rows' row,
                Some (rows ++ [ {| rowEmail := default EmptyString (p !! "email"%string);
                                   rowOTP := draw_otp k; timestamp := now |} ]) = Some rows' /\
                In row rows' /\ m = otp_mail (rowEmail row) (rowOTP row)) as Hold.
    { intros m Hm. destruct (Hb m Hm) as (rows0 & row & Hs0 & Hin & ->).
      rewrite Hs in Hs0. injection Hs0 as <-.
      eexists _, row. split; [reflexivity|]. split; [|done].
      apply in_or_app. by left. }
    destruct mail_error; intros m; simpl; [apply Hold|].
    intros Hm. apply in_app_or in Hm as [Hm|[<-|[]]]; [by apply Hold|].
    eexists _, {| rowEmail := default EmptyString (p !! "email"%string);
                  rowOTP := draw_otp k; timestamp := now |}.
    split; [reflexivity|]. split; [|reflexivity].
    apply in_or_app. right. by left.
  - intros m. simpl. intros Hm.
    destruct (Hb m Hm) as (rows0 & row & Hs0 & _). congruence.
Qed.

Lemma post_backed c w : mails_backed w -> mails_backed (snd (post c w)).
Proof.
  intros Hb. unfold post, doPost.
  destruct (call_parameter c !! "action"%string) as [action|]; [|done].
  destruct (String.eqb action "sendOTP"); [by apply sendOTP_backed|].
  destruct (String.eqb action "verifyOTP"); [by rewrite verifyOTP_reads_only|].
  destruct (String.eqb action "register"); [|done].
  unfold register. by destruct (call_sheet_error c).
Qed.

(** X24. Every mail the web app has sent carries a code that is in the
    "OTPs" sheet for the addressee: along every run of [doPost] calls from
    the empty spreadsheet, each mail of the log is the mail of some row. *)
Theorem mailed_codes_are_stored cs m :
  In m (mailLog (run cs empty_world)) ->
  exists rows row,
    otpSheet (run cs empty_world) = Some rows /\ In row rows /\
    m = otp_mail (rowEmail row) (rowOTP row).
Proof.
  assert (forall w, mails_backed w -> mails_backed (run cs w)) as Hrun.
  { induction cs as [|c cs IH]; intros w Hb; simpl; [done|].
    apply IH. by apply post_backed. }
  apply Hrun. intros m' [].
Qed.

End AppsScriptRuns.

(** Two [sendOTP] calls through [doPost]: the first inserts the sheet and
    fails, the second stores its row and mails the code 123456 of that
    row. *)
Lemma mailed_codes_are_stored_witness :
  exists rows row,
    AppsScript.otpSheet
      (AppsScript.run
         [ {| AppsScript.call_k := 23456; AppsScript.call_now := Sample.t0;
              AppsScript.call_mail_error := None; AppsScript.call_sheet_error := None;
              AppsScript.call_parameter :=
                <[ "action"%string := "sendOTP"%string ]>
                  (Sample.email_param Sample.alice) |};
           {| AppsScript.call_k := 23456; AppsScript.call_now := Sample.t0 + 1000;
              AppsScript.call_mail_error := None; AppsScript.call_sheet_error := None;
              AppsScript.call_parameter :=
                <[ "action"%string := "sendOTP"%string ]>
                  (Sample.email_param Sample.alice) |} ]
         AppsScript.empty_world) = Some rows /\
    In row rows /\
    AppsScript.otp_mail Sample.alice 123456 =
      AppsScript.otp_mail (AppsScript.rowEmail row) (AppsScript.rowOTP row).
Proof.
  apply (mailed_codes_are_stored _ (AppsScript.otp_mail Sample.alice 123456)).
  vm_compute. by left.
Defined.



(** ** Input checks and isolation on the Express service *)

Section ServerInputs.
Import Server.

(** X25. The verification handler answers with its missing-input error
    exactly when the email or the otp field is absent or empty, whatever the
    store holds. *)
Theorem invalid_input_exactly now email otp w :
  fst (otp_verify now email otp w) = InvalidInput <->
  truthy email = false \/ truthy otp = false.
Proof.
  destruct (truthy email) eqn:He, (truthy otp) eqn:Ho.
  - destruct email as [e|]; [|discriminate]. destruct otp as [o|]; [|discriminate].
    split; [|intros [H|H]; discriminate].
    unfold otp_verify. rewrite He, Ho. simpl.
    destruct (otpStore w !! e) as [entry|]; [|discriminate].
    destruct (negb (truthy (code entry))); [discriminate|].
    destruct (expiresAt entry <? now); [discriminate|].
    destruct (negb (String.eqb o (default EmptyString (code entry)))); discriminate.
  - split; [by right|]. intros _. unfold otp_verify.
    destruct email as [e|]; [|discriminate]. destruct otp as [o|]; [|done].
    by rewrite He, Ho.
  - split; [by left|]. intros _. unfold otp_verify.
    destruct email as [e|]; [|by destruct otp]. destruct otp as [o|]; [|done].
    by rewrite He.
  - split; [by left|]. intros _. unfold otp_verify.
    destruct email as [e|]; [|by destruct otp]. destruct otp as [o|]; [|done].
    by rewrite He.
Qed.

(** X26. Identities are isolated: a request that names another identity, or
    none, leaves the record of an identity exactly as it was, along whole
    runs of such requests as well. *)
Theorem requests_are_isolated cfg e rs w :
  forallb (fun r => negb (concerns e r)) rs = true ->
  otpStore (run cfg rs w) !! e = otpStore w !! e.
Proof. apply run_other. Qed.

End ServerInputs.

(** An issuance to [bob] and a wrong guess against [bob] leave the record of
    [alice] as it was. *)
Lemma requests_are_isolated_witness :
  Server.otpStore
    (Server.run Server.default_config
       [ Server.OtpSend (Sample.t0 + 5000) Sample.rnd_042913 true (Some Sample.bob);
         Server.OtpVerify (Sample.t0 + 6000) (Some Sample.bob) (Some "000000"%string) ]
       Sample.issued_once) !! Sample.alice
  = Server.otpStore Sample.issued_once !! Sample.alice.
Proof.
  apply (requests_are_isolated Server.default_config Sample.alice). reflexivity.
Defined.
